(** * OpenFOAM motorbike renderings: the orchestration code, verified

    A shallow embedding of [cfd_flow_animation.py] and
    [motorbike_mesh_visualisation.py].

    The two scripts only orchestrate calls into pyvista and numpy.  The
    embedding therefore records {e what is requested and in which order}:
    a plotter cell is the list of calls issued on it, a slice is the term
    [GSlice parent origin normal], and so on.  Library calls whose outcome
    depends on data outside the scripts ([pv.read], the streamline
    integrator, [np.linalg.norm]) are variables of a section.

    Numbers: Python [int] is [Z]; the float64 quantities (angles, camera
    settings, coordinates, opacities) are exact rationals [Q], so rounding
    of float64 arithmetic is not part of the model.  Python exceptions are
    the [Raise] case of [result]. *)

From Stdlib Require Import ZArith QArith Qround Qabs List String Ascii Bool Lia Lqa.
Import ListNotations.

Local Open Scope Z_scope.
Local Open Scope string_scope.
Local Open Scope list_scope.

(** ** Exceptions and fallible computations *)

Inductive Exn : Type :=
| ZeroDivisionError
| ValueError (msg : string)
| IndexError (msg : string)
| IOError (msg : string)
| RuntimeError (msg : string)
| KeyboardInterrupt.

Inductive result (A : Type) : Type :=
| Ok (a : A)
| Raise (e : Exn).

Arguments Ok {A} a.
Arguments Raise {A} e.

Definition bind {A B : Type} (m : result A) (k : A -> result B) : result B :=
  match m with
  | Ok a => k a
  | Raise e => Raise e
  end.

Declare Scope py_scope.
Delimit Scope py_scope with py.
Notation "x <- m ;; k" := (bind m (fun x => k))
  (at level 61, m at next level, right associativity) : py_scope.
Notation "m ;;; k" := (bind m (fun _ => k))
  (at level 61, right associativity) : py_scope.

(** [try: body / except: handler] with a bare [except], which catches every
    exception. *)
Definition try_except {A : Type} (body : result A) (handler : Exn -> result A)
  : result A :=
  match body with
  | Ok a => Ok a
  | Raise e => handler e
  end.

Definition is_ok {A : Type} (m : result A) : bool :=
  match m with Ok _ => true | Raise _ => false end.

(** ** Strings and paths *)

Module Str.

(** [s.endswith(suffix)] *)
Fixpoint endswith (s suffix : string) : bool :=
  if String.eqb s suffix then true
  else match s with
       | EmptyString => false
       | String _ rest => endswith rest suffix
       end.

(** [s.startswith(p)] *)
Definition startswith (s p : string) : bool := String.prefix p s.

Definition sep : ascii := "/"%char.

Fixpoint has_sep (s : string) : bool :=
  match s with
  | EmptyString => false
  | String c rest => if Ascii.eqb c sep then true else has_sep rest
  end.

(** [posixpath.join(a, b)] for two components. *)
Definition path_join (a b : string) : string :=
  if startswith b "/" then b
  else if (String.eqb a "" || endswith a "/")%bool then (a ++ b)%string
  else (a ++ "/" ++ b)%string.

(** [posixpath.basename(p)]: what follows the last separator. *)
Fixpoint basename (p : string) : string :=
  match p with
  | EmptyString => EmptyString
  | String c rest =>
      if has_sep rest then basename rest
      else if Ascii.eqb c sep then rest
      else p
  end.

End Str.

(** ** Datasets *)

Record Vec3 : Type := mkVec3 { x0 : Q; x1 : Q; x2 : Q }.

(** What the scripts observe of a dataset returned by [pv.read]:
    [.center] and [.array_names]; [ds_file] is the path it was read from. *)
Record DataSet : Type := mkDataSet {
  ds_file : string;
  center : Vec3;
  array_names : list string
}.

(** The type of [volume_mesh.streamlines_from_source(seed_poly, vectors=,
    max_steps=, integration_direction=)]: the integrated polylines, or the
    exception the integrator raises. *)
Definition Integrator : Type :=
  DataSet -> list Vec3 -> string -> Z -> string -> result (list (list Vec3)).

(** The combined motorbike surface, and everything that is handed to
    [plotter.add_mesh]. *)
Inductive Surface : Type :=
| Combined (blocks : list DataSet).
    (* pv.MultiBlock(blocks).combine() *)

Inductive Geometry : Type :=
| GSurface (surface : Surface)
| GSlice (parent : DataSet) (origin normal : Vec3)
    (* parent.slice(origin=..., normal=...) *)
| GStreamlines (lines : list (list Vec3))
    (* the polylines returned by parent.streamlines_from_source(...) *)
| GTranslated (part : DataSet) (by_ : Vec3).
    (* part.translate(by_) *)

(** ** The data directory and the loader *)

Section Loader.

(** [os.walk("motorBike-VTK")]: the (root, files) pairs in walk order. *)
Variable walk : list (string * list string).

(** [pv.read(path)]: a dataset, or the exception the reader raises. *)
Variable pv_read : string -> result DataSet.

(** The test of the inner loop: the per-part naming convention. *)
Definition is_part_name (fname : string) : bool :=
  (Str.endswith fname "_500.vtk" && negb (String.eqb fname "motorBike_500.vtk"))%bool.

(** The paths on which the loop body runs, in order. *)
Definition discovered : list string :=
  flat_map (fun rf : string * list string =>
              map (Str.path_join (fst rf)) (filter is_part_name (snd rf)))
           walk.

(** One pass of the inner loop body:
    [try: bike_parts.append(pv.read(part_path)) / except: continue]. *)
Definition load_one (bike_parts : list DataSet) (part_path : string)
  : list DataSet :=
  match pv_read part_path with
  | Ok mesh => bike_parts ++ [mesh]
  | Raise _ => bike_parts
  end.

Definition load_files (bike_parts : list DataSet) (root : string)
    (files : list string) : list DataSet :=
  fold_left (fun parts fname =>
               if is_part_name fname
               then load_one parts (Str.path_join root fname)
               else parts)
            files bike_parts.

(** [motorbike_mesh_visualisation.load_motorbike_parts] *)
Definition load_motorbike_parts : list DataSet :=
  fold_left (fun parts rf => load_files parts (fst rf) (snd rf)) walk [].

Definition volume_file : string :=
  Str.path_join "motorBike-VTK" "motorBike_500.vtk".

(** [cfd_flow_animation.load_data] *)
Definition load_data : result (DataSet * Surface) :=
  (volume_mesh <- pv_read volume_file ;;
   let bike_parts :=
     fold_left (fun parts rf => load_files parts (fst rf) (snd rf)) walk [] in
   Ok (volume_mesh, Combined bike_parts))%py.

(** The discovered paths whose read raised. *)
Definition failed_reads : list string :=
  filter (fun p => negb (is_ok (pv_read p))) discovered.

End Loader.

(** ** The plotter

    A 2x2 plotter is modelled by what was requested of it: per cell, the
    calls issued since the cell was last cleared, in order. *)

Inductive MeshStyle : Type :=
| ByScalars (scalars cmap : string) (opacity : Q) (line_width : option Q)
    (* add_mesh(m, scalars=, cmap=, opacity=, [line_width=,] show_scalar_bar=False) *)
| Solid (color : string) (opacity : Q) (edge_color : string) (line_width : Q).
    (* add_mesh(m, color=, opacity=, show_edges=True, edge_color=, line_width=) *)

Inductive Call : Type :=
| add_text (text position : string) (font_size : Z) (color : string)
| add_mesh (mesh : Geometry) (style : MeshStyle)
| add_scalar_bar (title : string) (position_x width height : Q)
    (title_font_size label_font_size : Z)
| set_background (color : string)
| view_isometric
| camera_azimuth (value : Q)      (* plotter.camera.azimuth = value *)
| camera_elevation (value : Q)    (* plotter.camera.elevation = value *)
| camera_zoom (value : Q)         (* plotter.camera.zoom(value) *)
| add_axes (line_width : Q)
| show.

Inductive CellId : Type := Cell00 | Cell01 | Cell10 | Cell11.

Record Canvas : Type := mkCanvas {
  cell00 : list Call;
  cell01 : list Call;
  cell10 : list Call;
  cell11 : list Call
}.

Record Plotter : Type := mkPlotter {
  active : CellId;
  canvas : Canvas;
  movie : option (string * Z * Z);   (* file, framerate, quality *)
  frames : list Canvas               (* what write_frame committed, in order *)
}.

Definition cell (c : Canvas) (id : CellId) : list Call :=
  match id with
  | Cell00 => cell00 c
  | Cell01 => cell01 c
  | Cell10 => cell10 c
  | Cell11 => cell11 c
  end.

Definition set_cell (c : Canvas) (id : CellId) (calls : list Call) : Canvas :=
  match id with
  | Cell00 => mkCanvas calls (cell01 c) (cell10 c) (cell11 c)
  | Cell01 => mkCanvas (cell00 c) calls (cell10 c) (cell11 c)
  | Cell10 => mkCanvas (cell00 c) (cell01 c) calls (cell11 c)
  | Cell11 => mkCanvas (cell00 c) (cell01 c) (cell10 c) calls
  end.

Definition empty_canvas : Canvas := mkCanvas [] [] [] [].

(** [pv.Plotter(shape=(2, 2), off_screen=True, window_size=(1920, 1080))] *)
Definition new_plotter : Plotter := mkPlotter Cell00 empty_canvas None [].

(** [plotter.subplot(row, col)] *)
Definition subplot (plotter : Plotter) (row col : Z) : result Plotter :=
  let select id :=
    Ok (mkPlotter id (canvas plotter) (movie plotter) (frames plotter)) in
  match row, col with
  | 0, 0 => select Cell00
  | 0, 1 => select Cell01
  | 1, 0 => select Cell10
  | 1, 1 => select Cell11
  | _, _ => Raise (IndexError "subplot index out of range")
  end.

(** Any drawing or camera call: it lands on the active cell. *)
Definition issue (plotter : Plotter) (c : Call) : Plotter :=
  mkPlotter (active plotter)
            (set_cell (canvas plotter) (active plotter)
                      (cell (canvas plotter) (active plotter) ++ [c]))
            (movie plotter) (frames plotter).

(** [plotter.clear()] *)
Definition clear (plotter : Plotter) : Plotter :=
  mkPlotter (active plotter)
            (set_cell (canvas plotter) (active plotter) [])
            (movie plotter) (frames plotter).

(** [plotter.open_movie(file, framerate=, quality=)] *)
Definition open_movie (plotter : Plotter) (file : string) (framerate quality : Z)
  : Plotter :=
  mkPlotter (active plotter) (canvas plotter) (Some (file, framerate, quality))
            (frames plotter).

(** [plotter.write_frame()] *)
Definition write_frame (plotter : Plotter) : result Plotter :=
  match movie plotter with
  | Some _ =>
      Ok (mkPlotter (active plotter) (canvas plotter) (movie plotter)
                    (frames plotter ++ [canvas plotter]))
  | None => Raise (RuntimeError "write_frame: no movie is open")
  end.

(** [plotter.close()] *)
Definition close (plotter : Plotter) : Plotter :=
  mkPlotter (active plotter) (canvas plotter) None (frames plotter).

(** Reading a cell back. *)

Definition last_azimuth (calls : list Call) : option Q :=
  fold_left (fun acc c => match c with camera_azimuth a => Some a | _ => acc end)
            calls None.

Definition is_azimuth (c : Call) : bool :=
  match c with camera_azimuth _ => true | _ => false end.

Definition without_azimuth (calls : list Call) : list Call :=
  filter (fun c => negb (is_azimuth c)) calls.

(** The (origin, normal) of every slice drawn in a cell. *)
Definition slice_planes (calls : list Call) : list (Vec3 * Vec3) :=
  flat_map (fun c => match c with
                     | add_mesh (GSlice _ origin normal) _ => [(origin, normal)]
                     | _ => []
                     end) calls.

Definition scalar_bar_titles (calls : list Call) : list string :=
  flat_map (fun c => match c with
                     | add_scalar_bar title _ _ _ _ _ => [title]
                     | _ => []
                     end) calls.

(** ** The four view composers of [cfd_flow_animation.py] *)

Section Composers.

Variable streamlines_from_source : Integrator.

Local Open Scope Q_scope.

Definition setup_velocity_view (plotter : Plotter) (volume_mesh : DataSet)
    (bike_surface : Surface) (angle : Q) : result Plotter :=
  (plotter <- subplot plotter 0 0 ;;
   let plotter := issue plotter (add_text "Velocity Field (m/s)" "upper_left" 12 "black") in

   let center := center volume_mesh in
   let slice_long := GSlice volume_mesh center (mkVec3 0 1 0) in
   let slice_wake := GSlice volume_mesh (mkVec3 (x0 center + 1.0) (x1 center) (x2 center)) (mkVec3 1 0 0) in
   let slice_ground := GSlice volume_mesh (mkVec3 (x0 center) (x1 center) 0.8) (mkVec3 0 0 1) in

   let plotter := issue plotter (add_mesh slice_long (ByScalars "U" "jet" 0.9 None)) in
   let plotter := issue plotter (add_mesh slice_wake (ByScalars "U" "coolwarm" 0.6 None)) in
   let plotter := issue plotter (add_mesh slice_ground (ByScalars "U" "plasma" 0.4 None)) in
   let plotter := issue plotter (add_mesh (GSurface bike_surface) (Solid "silver" 0.7 "black" 0.2)) in
   let plotter := issue plotter (add_scalar_bar "Velocity" 0.85 0.05 0.3 8 7) in

   let plotter := issue plotter (set_background "white") in
   let plotter := issue plotter view_isometric in
   let plotter := issue plotter (camera_azimuth (angle * 0.5)) in
   let plotter := issue plotter (camera_elevation 20) in
   let plotter := issue plotter (camera_zoom 1.2) in
   Ok plotter)%py.

Definition setup_pressure_view (plotter : Plotter) (volume_mesh : DataSet)
    (bike_surface : Surface) (angle : Q) : result Plotter :=
  (plotter <- subplot plotter 0 1 ;;
   let plotter := issue plotter (add_text "Pressure Field (Pa)" "upper_left" 12 "black") in

   let center := center volume_mesh in
   let slice_back := GSlice volume_mesh (mkVec3 (x0 center + 0.5) (x1 center) (x2 center)) (mkVec3 1 0 0) in
   let slice_front := GSlice volume_mesh (mkVec3 (x0 center - 0.5) (x1 center) (x2 center)) (mkVec3 1 0 0) in

   let plotter := issue plotter (add_mesh slice_back (ByScalars "p" "coolwarm" 0.9 None)) in
   let plotter := issue plotter (add_mesh slice_front (ByScalars "p" "RdBu" 0.6 None)) in
   let plotter := issue plotter (add_mesh (GSurface bike_surface) (Solid "darkgray" 0.5 "black" 0.3)) in
   let plotter := issue plotter (add_scalar_bar "Pressure" 0.85 0.05 0.3 8 7) in

   let plotter := issue plotter (set_background "white") in
   let plotter := issue plotter view_isometric in
   let plotter := issue plotter (camera_azimuth (angle * 0.5)) in
   let plotter := issue plotter (camera_elevation 20) in
   let plotter := issue plotter (camera_zoom 1.2) in
   Ok plotter)%py.

Definition setup_mesh_view (plotter : Plotter) (bike_surface : Surface)
    (angle : Q) : result Plotter :=
  (plotter <- subplot plotter 1 0 ;;
   let plotter := issue plotter (add_text "Motorbike Geometry" "upper_left" 12 "black") in

   let plotter := issue plotter (add_mesh (GSurface bike_surface) (Solid "silver" 0.9 "black" 0.4)) in

   let plotter := issue plotter (set_background "white") in
   let plotter := issue plotter view_isometric in
   let plotter := issue plotter (camera_azimuth angle) in
   let plotter := issue plotter (camera_elevation 25) in
   let plotter := issue plotter (camera_zoom 1.3) in
   Ok plotter)%py.

(** [x in names] *)
Definition contains (names : list string) (x : string) : bool :=
  existsb (String.eqb x) names.

(** The [if]/[elif]/[else] of [setup_flow_analysis]: the attribute the
    wake slice is coloured by, its colour scale and the legend title. *)
Definition flow_attribute (volume_mesh : DataSet) : string * string * string :=
  if contains (array_names volume_mesh) "omega" then ("omega", "turbo", "Turbulence")
  else if contains (array_names volume_mesh) "k" then ("k", "hot", "Turbulent Energy")
  else ("U", "viridis", "Velocity").

Definition seed_points (center : Vec3) : list Vec3 :=
  flat_map (fun y => map (fun z => mkVec3 (x0 center - 3) y z) [1.5; 2.0; 2.5])
           [-1.0; 0.0; 1.0].

Definition setup_flow_analysis (plotter : Plotter) (volume_mesh : DataSet)
    (bike_surface : Surface) (angle : Q) : result Plotter :=
  (plotter <- subplot plotter 1 1 ;;
   let plotter := issue plotter (add_text "Flow Analysis & Wake" "upper_left" 12 "black") in

   let center := center volume_mesh in
   let wake_slice := GSlice volume_mesh (mkVec3 (x0 center + 2.0) (x1 center) (x2 center)) (mkVec3 1 0 0) in

   let '(scalars, cmap, field_name) := flow_attribute volume_mesh in
   let plotter := issue plotter (add_mesh wake_slice (ByScalars scalars cmap 0.8 None)) in

   plotter <- try_except
                (let seed_poly := seed_points center in
                 streamlines <- streamlines_from_source volume_mesh seed_poly "U" 100%Z "forward" ;;
                 Ok (issue plotter (add_mesh (GStreamlines streamlines)
                                             (ByScalars "U" "rainbow" 0.9 (Some 2)))))
                (fun _ => Ok plotter) ;;

   let plotter := issue plotter (add_mesh (GSurface bike_surface) (Solid "darkblue" 0.6 "navy" 0.3)) in
   let plotter := issue plotter (add_scalar_bar field_name 0.85 0.05 0.3 8 7) in

   let plotter := issue plotter (set_background "lightgray") in
   let plotter := issue plotter view_isometric in
   let plotter := issue plotter (camera_azimuth (angle * 0.3)) in
   let plotter := issue plotter (camera_elevation 15) in
   let plotter := issue plotter (camera_zoom 1.0) in
   Ok plotter)%py.

End Composers.

(** ** Python and numpy arithmetic used by the frame driver *)

Module Py.

(** [a // b] on ints *)
Definition floordiv (a b : Z) : result Z :=
  if (b =? 0)%Z then Raise ZeroDivisionError else Ok (a / b).

(** [a % b] on ints *)
Definition mod_ (a b : Z) : result Z :=
  if (b =? 0)%Z then Raise ZeroDivisionError else Ok (a mod b).

(** [a / b] on ints (true division) *)
Definition truediv (a b : Z) : result Q :=
  if (b =? 0)%Z then Raise ZeroDivisionError else Ok (inject_Z a / inject_Z b)%Q.

(** Rounding to the nearest integer, ties to even. *)
Definition round_half_even (q : Q) : Z :=
  let f := Qfloor q in
  match ((q - inject_Z f) ?= (1 # 2))%Q with
  | Lt => f
  | Gt => f + 1
  | Eq => if Z.even f then f else f + 1
  end.

Definition digit (d : Z) : string :=
  String (ascii_of_nat (48 + Z.to_nat d)) EmptyString.

Fixpoint digits (fuel : nat) (n : Z) : string :=
  match fuel with
  | O => digit (n mod 10)
  | S fuel' => if (n <? 10)%Z then digit n else (digits fuel' (n / 10) ++ digit (n mod 10))%string
  end.

(** [str(n)] for an int *)
Definition str (n : Z) : string :=
  if (n <? 0)%Z then ("-" ++ digits (Z.to_nat (Z.log2 (- n))) (- n))%string
  else digits (Z.to_nat (Z.log2 n)) n.

(** [f"{q:.0f}"] *)
Definition format_0f (q : Q) : string := str (round_half_even q).

(** [range(n)] *)
Definition range (n : Z) : list Z := map Z.of_nat (seq 0 (Z.to_nat n)).

(** [enumerate(xs)] *)
Definition enumerate {A : Type} (xs : list A) : list (Z * A) :=
  combine (range (Z.of_nat (List.length xs))) xs.

(** [np.linspace(start, stop, num, endpoint=False)] *)
Definition linspace (start stop : Q) (num : Z) : result (list Q) :=
  if (num <? 0)%Z then Raise (ValueError "Number of samples must be non-negative")
  else
    let step := ((stop - start) / inject_Z num)%Q in
    Ok (map (fun i => (inject_Z i * step + start)%Q) (range num)).

(** A [for] loop whose body may raise. *)
Fixpoint for_each {A S : Type} (xs : list A) (body : A -> S -> result S) (s : S)
  : result S :=
  match xs with
  | [] => Ok s
  | x :: rest =>
      match body x s with
      | Ok s' => for_each rest body s'
      | Raise e => Raise e
      end
  end.

End Py.

(** ** The frame driver of [cfd_flow_animation.py] *)

(** The variables of [create_animation] that live across loop iterations. *)
Record Locals : Type := mkLocals {
  st_volume_mesh : DataSet;
  st_bike_surface : Surface;
  st_plotter : Plotter;
  st_stdout : list string
}.

Section Driver.

Variable walk : list (string * list string).
Variable pv_read : string -> result DataSet.
Variable streamlines_from_source : Integrator.

(** The two nested [range(2)] loops: [subplot(row, col); clear()]. *)
Definition clear_all (plotter : Plotter) : result Plotter :=
  Py.for_each (Py.range 2)
    (fun row plotter =>
       Py.for_each (Py.range 2)
         (fun col plotter =>
            (plotter <- subplot plotter row col ;;
             Ok (clear plotter))%py)
         plotter)
    plotter.

(** The four composer calls of one iteration. *)
Definition compose (plotter : Plotter) (volume_mesh : DataSet)
    (bike_surface : Surface) (angle : Q) : result Plotter :=
  (plotter <- setup_velocity_view plotter volume_mesh bike_surface angle ;;
   plotter <- setup_pressure_view plotter volume_mesh bike_surface angle ;;
   plotter <- setup_mesh_view plotter bike_surface angle ;;
   setup_flow_analysis streamlines_from_source plotter volume_mesh bike_surface angle)%py.

(** The 10% checkpoint: [Some message] when a line is printed. *)
Definition progress (total_frames i : Z) : result (option string) :=
  (tenth <- Py.floordiv total_frames 10 ;;
   r <- Py.mod_ (i + 1) tenth ;;
   if (r =? 0)%Z then
     ratio <- Py.truediv (i + 1) total_frames ;;
     Ok (Some ("Progress: " ++ Py.format_0f (ratio * 100)%Q ++ "%")%string)
   else Ok None)%py.

(** Lines 131-141 of the loop body: clear, compose, commit. *)
Definition render_frame (plotter : Plotter) (volume_mesh : DataSet)
    (bike_surface : Surface) (angle : Q) : result Plotter :=
  (plotter <- clear_all plotter ;;
   plotter <- compose plotter volume_mesh bike_surface angle ;;
   write_frame plotter)%py.

(** The body of [for i, angle in enumerate(angles)]. *)
Definition frame_body (total_frames : Z) (ia : Z * Q) (st : Locals)
  : result Locals :=
  let '(i, angle) := ia in
  (p <- render_frame (st_plotter st) (st_volume_mesh st) (st_bike_surface st) angle ;;
   message <- progress total_frames i ;;
   let out := match message with
              | Some line => st_stdout st ++ [line]
              | None => st_stdout st
              end in
   Ok (mkLocals (st_volume_mesh st) (st_bike_surface st) p out))%py.

(** [create_animation] with [fps, duration] as parameters, up to and
    including [plotter.close()].  The file-size report that follows needs
    [os.path.getsize] and is not modelled; it prints no progress line. *)
Definition create_animation_with (fps duration : Z) : result Locals :=
  let output_file := "motorbike_cfd_analysis.mp4" in
  let total_frames := fps * duration in
  (loaded <- load_data walk pv_read ;;
   let '(volume_mesh, bike_surface) := loaded in
   let plotter := new_plotter in
   angles <- Py.linspace 0 360 total_frames ;;
   let plotter := open_movie plotter output_file fps 9 in
   st <- Py.for_each (Py.enumerate angles) (frame_body total_frames)
           (mkLocals volume_mesh bike_surface plotter []) ;;
   Ok (mkLocals (st_volume_mesh st) (st_bike_surface st) (close (st_plotter st)) (st_stdout st)))%py.

(** [fps, duration = 20, 10] *)
Definition create_animation : result Locals := create_animation_with 20 10.

End Driver.

(** ** Observations on a run *)

(** The parts the loader keeps: the reads that did not raise, in order. *)
Definition successes (pv_read : string -> result DataSet) (paths : list string)
  : list DataSet :=
  flat_map (fun p => match pv_read p with Ok d => [d] | Raise _ => [] end) paths.

(** File names as [os.walk] yields them: no separator inside. *)
Definition plain_names (walk : list (string * list string)) : bool :=
  forallb (fun rf : string * list string =>
             forallb (fun fname => negb (Str.has_sep fname)) (snd rf)) walk.

(** Per committed frame, the azimuth of one cell. *)
Definition azimuth_track (id : CellId) (p : Plotter) : list (option Q) :=
  map (fun c => last_azimuth (cell c id)) (frames p).

Definition Qsum (l : list Q) : Q := fold_right Qplus 0%Q l.

Definition values (l : list (option Q)) : list Q :=
  flat_map (fun o => match o with Some q => [q] | None => [] end) l.

(** Successive differences of a list. *)
Fixpoint steps (l : list Q) : list Q :=
  match l with
  | a :: ((b :: _) as rest) => (b - a)%Q :: steps rest
  | _ => []
  end.

(** A canvas with every azimuth assignment removed. *)
Definition strip_azimuth (c : Canvas) : Canvas :=
  mkCanvas (without_azimuth (cell00 c)) (without_azimuth (cell01 c))
           (without_azimuth (cell10 c)) (without_azimuth (cell11 c)).

(** What a composer call left in a cell ([[]] if it raised). *)
Definition drawn (r : result Plotter) (id : CellId) : list Call :=
  match r with Ok p => cell (canvas p) id | Raise _ => [] end.

(** Appending calls to one cell of a plotter and making it the active one. *)
Definition extend (plotter : Plotter) (id : CellId) (calls : list Call) : Plotter :=
  mkPlotter id (set_cell (canvas plotter) id (cell (canvas plotter) id ++ calls))
            (movie plotter) (frames plotter).

(** The canvas one frame commits: what each composer draws on a cleared
    cell. *)
Definition composed_canvas
    (streamlines_from_source : Integrator)
    (volume_mesh : DataSet) (bike_surface : Surface) (angle : Q) : Canvas :=
  mkCanvas
    (drawn (setup_velocity_view new_plotter volume_mesh bike_surface angle) Cell00)
    (drawn (setup_pressure_view new_plotter volume_mesh bike_surface angle) Cell01)
    (drawn (setup_mesh_view new_plotter bike_surface angle) Cell10)
    (drawn (setup_flow_analysis streamlines_from_source new_plotter
              volume_mesh bike_surface angle) Cell11).

(** The lines a run of the loop prints, checkpoint by checkpoint. *)
Definition printed (total_frames : Z) (indices : list Z) : list string :=
  flat_map (fun i => match progress total_frames i with
                     | Ok (Some line) => [line]
                     | _ => []
                     end) indices.

(** ** The exploded view of [motorbike_mesh_visualisation.py] *)

Module Np.

Local Open Scope Q_scope.

Definition zero : Vec3 := mkVec3 0 0 0.

Definition sub (a b : Vec3) : Vec3 :=
  mkVec3 (x0 a - x0 b) (x1 a - x1 b) (x2 a - x2 b).

Definition add (a b : Vec3) : Vec3 :=
  mkVec3 (x0 a + x0 b) (x1 a + x1 b) (x2 a + x2 b).

(** [v * k] *)
Definition scale (v : Vec3) (k : Q) : Vec3 :=
  mkVec3 (x0 v * k) (x1 v * k) (x2 v * k).

Definition gt (a b : Q) : bool := negb (Qle_bool a b).

(** [v / d].  numpy answers a zero divisor with inf or nan and a
    RuntimeWarning; the embedding makes that fault explicit. *)
Definition divide (v : Vec3) (d : Q) : result Vec3 :=
  if Qeq_bool d 0 then Raise ZeroDivisionError
  else Ok (mkVec3 (x0 v / d) (x1 v / d) (x2 v / d)).

(** [np.mean(vs, axis=0)].  For the empty list numpy returns nan (with a
    RuntimeWarning): that is [None]. *)
Definition mean (vs : list Vec3) : option Vec3 :=
  match vs with
  | [] => None
  | _ :: _ =>
      let total := fold_left add vs zero in
      let n := inject_Z (Z.of_nat (List.length vs)) in
      Some (mkVec3 (x0 total / n) (x1 total / n) (x2 total / n))
  end.

(** Same components, as rationals. *)
Definition veq (a b : Vec3) : Prop :=
  x0 a == x0 b /\ x1 a == x1 b /\ x2 a == x2 b.

End Np.

Section Exploded.

(** [np.linalg.norm] on a vector of three numbers. *)
Variable linalg_norm : Vec3 -> Q.

Local Open Scope Q_scope.

Definition explosion_factor : Q := 0.3.

Definition colors : list string :=
  ["red"; "blue"; "green"; "orange"; "purple"; "brown"; "pink"; "gray"].

(** Lines 90-94: the unit direction from the global centre to the part,
    or the zero vector.  A nan global centre makes the offset and its
    norm nan, and [nan > 0] is false. *)
Definition offset_direction (part_center : Vec3) (global_center : option Vec3)
  : result Vec3 :=
  match global_center with
  | None => Ok Np.zero
  | Some g =>
      let offset_direction := Np.sub part_center g in
      if Np.gt (linalg_norm offset_direction) 0
      then Np.divide offset_direction (linalg_norm offset_direction)
      else Ok Np.zero
  end.

(** The body of [for i, part in enumerate(bike_parts)]. *)
Definition explode_body (global_center : option Vec3) (ip : Z * DataSet)
    (calls : list Call) : result (list Call) :=
  let '(i, part) := ip in
  (direction <- offset_direction (center part) global_center ;;
   let exploded_part := GTranslated part (Np.scale direction explosion_factor) in
   let color := nth (Z.to_nat (i mod Z.of_nat (List.length colors))) colors "" in
   Ok (calls ++ [add_mesh exploded_part (Solid color 0.8 "black" 0.2)]))%py.

(** [exploded_view], from the loaded parts to [plotter.show()]: the calls
    made on its single-cell plotter. *)
Definition exploded_view (bike_parts : list DataSet) : result (list Call) :=
  let all_centers := map center bike_parts in
  let global_center := Np.mean all_centers in
  (calls <- Py.for_each (Py.enumerate bike_parts) (explode_body global_center) [] ;;
   Ok (calls ++ [set_background "lightgray"; add_axes 4; view_isometric;
                 camera_azimuth 30; camera_elevation 20; camera_zoom 0.7;
                 show]))%py.

(** The direction computed for a part (zero if the computation failed). *)
Definition direction (global_center : option Vec3) (part : DataSet) : Vec3 :=
  match offset_direction (center part) global_center with
  | Ok d => d
  | Raise _ => Np.zero
  end.

(** The translation applied to each part, in order. *)
Definition translations (calls : list Call) : list (DataSet * Vec3) :=
  flat_map (fun c => match c with
                     | add_mesh (GTranslated part by_) _ => [(part, by_)]
                     | _ => []
                     end) calls.

End Exploded.

(** A rational stand-in for the Euclidean norm, rounded down:
    sqrt(n/d) = sqrt(n*d)/d. *)
Definition norm_floor (v : Vec3) : Q :=
  let s := Qred (x0 v * x0 v + x1 v * x1 v + x2 v * x2 v) in
  Z.sqrt (Qnum s * Zpos (Qden s)) # Qden s.

(** ** Concrete inputs, for the worked examples *)

Module Demo.

Definition walk : list (string * list string) :=
  [("motorBike-VTK", ["motorBike_500.vtk"; "notes.txt"]);
   ("motorBike-VTK/motorBike",
    ["frame_500.vtk"; "seat_500.vtk"; "motorBike_500.vtk"; "broken_500.vtk"])].

Definition volume : DataSet :=
  mkDataSet "motorBike-VTK/motorBike_500.vtk" (mkVec3 1 0 0.5) ["U"; "p"].

(** One part file is unreadable. *)
Definition pv_read (path : string) : result DataSet :=
  if String.eqb path "motorBike-VTK/motorBike/broken_500.vtk"
  then Raise (IOError "unreadable")
  else if String.eqb path "motorBike-VTK/motorBike_500.vtk" then Ok volume
  else Ok (mkDataSet path (mkVec3 0 0 0) []).

(** The same directory with a volume file that carries no attribute. *)
Definition pv_read_bare (path : string) : result DataSet :=
  if String.eqb path "motorBike-VTK/motorBike_500.vtk"
  then Ok (mkDataSet path (mkVec3 7 7 7) [])
  else pv_read path.

(** An integrator that always fails, and one that never does. *)
Definition failing : Integrator :=
  fun _ _ _ _ _ => Raise (ValueError "no streamlines").

Definition integrating : Integrator :=
  fun _ seeds _ _ _ => Ok (map (fun seed => [seed]) seeds).

Definition turbulent : DataSet :=
  mkDataSet "motorBike-VTK/motorBike_500.vtk" (mkVec3 1 0 0.5)
            ["U"; "p"; "k"; "omega"].

(** Three parts; the second sits exactly at their common centre. *)
Definition parts : list DataSet :=
  [mkDataSet "a" (mkVec3 0 0 0) []; mkDataSet "b" (mkVec3 3 0 4) [];
   mkDataSet "c" (mkVec3 6 0 8) []].

End Demo.

(** ** The interactive viewer of [motorbike_mesh_visualisation.py] *)

Module Text.

(** A Python [str]: the sequence of its code points. *)
Definition text : Type := list N.

(** The code points of an ASCII literal. *)
Fixpoint of_string (s : string) : text :=
  match s with
  | EmptyString => []
  | String c rest => N_of_ascii c :: of_string rest
  end.

(** [a == b] on strings *)
Fixpoint eqb (a b : text) : bool :=
  match a, b with
  | [], [] => true
  | x :: a', y :: b' => N.eqb x y && eqb a' b'
  | _, _ => false
  end.

(** [c.isspace()], the characters that [str.strip()] removes: U+0009 to
    U+000D, U+001C to U+0020, U+0085, U+00A0, U+1680, U+2000 to U+200A,
    U+2028, U+2029, U+202F, U+205F and U+3000. *)
Definition is_space (c : N) : bool :=
  ((9 <=? c) && (c <=? 13) || (28 <=? c) && (c <=? 32) ||
   (c =? 133) || (c =? 160) || (c =? 5760) ||
   (8192 <=? c) && (c <=? 8202) ||
   (c =? 8232) || (c =? 8233) || (c =? 8239) || (c =? 8287) ||
   (c =? 12288))%N.

(** [s.lstrip()], [s.rstrip()] and [s.strip()] *)
Fixpoint lstrip (s : text) : text :=
  match s with
  | [] => []
  | c :: rest => if is_space c then lstrip rest else s
  end.

Fixpoint rstrip (s : text) : text :=
  match s with
  | [] => []
  | c :: rest =>
      match rstrip rest with
      | [] => if is_space c then [] else [c]
      | kept => c :: kept
      end
  end.

Definition strip (s : text) : text := lstrip (rstrip s).

Definition all_space (s : text) : bool := forallb is_space s.

End Text.

(** Calls on the viewer's single-cell plotter: those of the animation
    plotter and the ones only the viewer makes. *)
Inductive ViewerCall : Type :=
| on_plotter (c : Call)
| add_part_mesh (part : DataSet) (style : MeshStyle)
    (* plotter.add_mesh(part, color=, opacity=, show_edges=True, ...) *)
| show_grid (color : string)
| add_light (position : Vec3) (intensity : Q).

Module Viewer.

Local Open Scope Q_scope.

(** [xs[i]] on a list: negative indices count from the end, anything
    outside raises IndexError. *)
Definition list_index {A : Type} (xs : list A) (i : Z) : result A :=
  let n := Z.of_nat (List.length xs) in
  let j := if (i <? 0)%Z then (i + n)%Z else i in
  if ((0 <=? j) && (j <? n))%Z
  then match nth_error xs (Z.to_nat j) with
       | Some x => Ok x
       | None => Raise (IndexError "list index out of range")
       end
  else Raise (IndexError "list index out of range").

(** The dict [part_colors] of [detailed_view], in insertion order. *)
Definition part_colors : list (string * string) :=
  [("frame", "darkred"); ("engine", "darkgray"); ("wheel", "black");
   ("tyre", "dimgray"); ("brake", "silver"); ("fairing", "blue");
   ("fuel-tank", "red"); ("seat", "brown"); ("rider", "navy");
   ("exhaust", "darkslategray"); ("light", "yellow"); ("chain", "gold")]%string.

(** [get_part_color(index)] *)
Definition get_part_color (index : Z) : result string :=
  let colors := map snd part_colors in
  (k <- Py.mod_ index (Z.of_nat (List.length colors)) ;;
   list_index colors k)%py.

(** The scene set-up shared by [simple_view] and [detailed_view], from
    [set_background] to [show]. *)
Definition scene : list ViewerCall :=
  [on_plotter (set_background "white");
   on_plotter (add_axes 4);
   show_grid "lightgray";
   on_plotter view_isometric;
   on_plotter (camera_azimuth 45);
   on_plotter (camera_elevation 25);
   on_plotter (camera_zoom 1.2);
   add_light (mkVec3 10 10 10) 0.8;
   add_light (mkVec3 (-5) 5 5) 0.4;
   on_plotter show].

Section Views.

Variable walk : list (string * list string).
Variable pv_read : string -> result DataSet.
Variable linalg_norm : Vec3 -> Q.

(** [simple_view] *)
Definition simple_view : list ViewerCall :=
  let bike_parts := load_motorbike_parts walk pv_read in
  let combined_bike := Combined bike_parts in
  on_plotter (add_mesh (GSurface combined_bike) (Solid "lightgray" 0.7 "black" 0.5))
  :: scene.

(** The body of [for i, part in enumerate(bike_parts)] in [detailed_view]. *)
Definition detail_body (ip : Z * DataSet) (calls : list ViewerCall)
  : result (list ViewerCall) :=
  let '(i, part) := ip in
  (color <- get_part_color i ;;
   Ok (calls ++ [add_part_mesh part (Solid color 0.9 "black" 0.3)]))%py.

(** [detailed_view] *)
Definition detailed_view : result (list ViewerCall) :=
  let bike_parts := load_motorbike_parts walk pv_read in
  (calls <- Py.for_each (Py.enumerate bike_parts) detail_body [] ;;
   Ok (calls ++ scene))%py.

(** The script body: the menu, the prompt, the stripped answer and the
    view it selects.  [input] is the line typed, without its newline. *)
Definition main (input : Text.text) : list string * result (list ViewerCall) :=
  let out := ["Motorbike Mesh Visualization"; "1. Simple view";
              "2. Detailed view"; "3. Exploded view";
              "Enter choice (1-3): "]%string in
  let choice := Text.strip input in
  if Text.eqb choice (Text.of_string "1") then (out, Ok simple_view)
  else if Text.eqb choice (Text.of_string "2") then (out, detailed_view)
  else if Text.eqb choice (Text.of_string "3") then
    (out, (calls <- exploded_view linalg_norm (load_motorbike_parts walk pv_read) ;;
           Ok (map on_plotter calls))%py)
  else (out ++ ["Invalid choice, showing simple view"%string], Ok simple_view).

End Views.

(** The parts drawn one by one, with their colours, in order. *)
Definition part_meshes (calls : list ViewerCall) : list (DataSet * string) :=
  flat_map (fun c => match c with
                     | add_part_mesh part (Solid color _ _ _) => [(part, color)]
                     | _ => []
                     end) calls.

End Viewer.

(** ** Further observations *)

(** The squared Euclidean length. *)
Definition normsq (v : Vec3) : Q :=
  (x0 v * x0 v + x1 v * x1 v + x2 v * x2 v)%Q.

(** The colour given to each exploded part, in order. *)
Definition exploded_colors (calls : list Call) : list string :=
  flat_map (fun c => match c with
                     | add_mesh (GTranslated _ _) (Solid color _ _ _) => [color]
                     | _ => []
                     end) calls.

(** The last four calls of a cell. *)
Definition camera_calls (calls : list Call) : list Call :=
  skipn (List.length calls - 4) calls.

Definition is_streamlines (c : Call) : bool :=
  match c with add_mesh (GStreamlines _) _ => true | _ => false end.

(** ** The volumetric field as an object

    A composer receives [volume_mesh] by reference.  The embedding above
    passes what the scripts read of it, a [DataSet].  Here the field is the
    object itself: the data read and the name of its active vector array,
    which the scripts never read and which pyvista's
    [streamlines_from_source(..., vectors=name)] sets on the dataset it is
    called on. *)

Record FieldObject : Type := mkFieldObject {
  field_data : DataSet;
  field_active_vectors : option string
}.

(** [streamlines_from_source] as a method of the object: what it returns or
    raises, and the object as the call leaves it. *)
Definition IntegratorMethod : Type :=
  FieldObject -> list Vec3 -> string -> Z -> string ->
  result (list (list Vec3)) * FieldObject.

Section ByReference.

Variable streamlines_from_source : IntegratorMethod.

Local Open Scope Q_scope.

(** [setup_flow_analysis] with [volume_mesh] by reference: the plotter as
    before, and the field as the call leaves it. *)
Definition setup_flow_analysis_by_reference (plotter : Plotter)
    (volume_mesh : FieldObject) (bike_surface : Surface) (angle : Q)
  : result Plotter * FieldObject :=
  match subplot plotter 1 1 with
  | Raise e => (Raise e, volume_mesh)
  | Ok plotter =>
      let plotter := issue plotter (add_text "Flow Analysis & Wake" "upper_left" 12 "black") in

      let center := center (field_data volume_mesh) in
      let wake_slice := GSlice (field_data volume_mesh) (mkVec3 (x0 center + 2.0) (x1 center) (x2 center)) (mkVec3 1 0 0) in

      let '(scalars, cmap, field_name) := flow_attribute (field_data volume_mesh) in
      let plotter := issue plotter (add_mesh wake_slice (ByScalars scalars cmap 0.8 None)) in

      let seed_poly := seed_points center in
      let '(outcome, volume_mesh) :=
        streamlines_from_source volume_mesh seed_poly "U" 100%Z "forward" in
      let plotter :=
        match outcome with
        | Ok streamlines =>
            issue plotter (add_mesh (GStreamlines streamlines)
                                    (ByScalars "U" "rainbow" 0.9 (Some 2)))
        | Raise _ => plotter
        end in

      let plotter := issue plotter (add_mesh (GSurface bike_surface) (Solid "darkblue" 0.6 "navy" 0.3)) in
      let plotter := issue plotter (add_scalar_bar field_name 0.85 0.05 0.3 8 7) in

      let plotter := issue plotter (set_background "lightgray") in
      let plotter := issue plotter view_isometric in
      let plotter := issue plotter (camera_azimuth (angle * 0.3)) in
      let plotter := issue plotter (camera_elevation 15) in
      let plotter := issue plotter (camera_zoom 1.0) in
      (Ok plotter, volume_mesh)
  end.

End ByReference.

(** ** More concrete inputs *)

Module Sample.

(** A directory none of whose files can be read. *)
Definition unreadable (path : string) : result DataSet :=
  Raise (IOError "no such file").

(** Two plotters with a movie open, one of them with content. *)
Definition recording : Plotter := open_movie new_plotter "a.mp4" 20 9.

Definition used : Plotter :=
  issue (open_movie new_plotter "b.mp4" 20 9) (set_background "black").

(** A single part. *)
Definition lonely : DataSet := mkDataSet "only" (mkVec3 1 2 3) [].

(** An integrator that, as pyvista's does, makes [vectors] the active
    vectors of the field it is called on. *)
Definition activating : IntegratorMethod :=
  fun field seeds vectors _ _ =>
    (Ok (map (fun seed => [seed]) seeds),
     mkFieldObject (field_data field) (Some vectors)).

(** The demo field as loaded: no active vectors yet. *)
Definition fresh_field : FieldObject := mkFieldObject Demo.volume None.

(** An answer padded with an em space (U+2003) in front and a space and a
    no-break space behind. *)
Definition em_space : Text.text := [8195%N].
Definition trailing : Text.text := [32%N; 160%N].

End Sample.

(** * Properties *)

(** ** Strings and paths *)

Lemma has_sep_app_l (a b : string) :
  Str.has_sep a = true -> Str.has_sep (a ++ b)%string = true.
Proof.
  induction a as [|c a IH]; simpl; [discriminate|].
  destruct (Ascii.eqb c Str.sep); auto.
Qed.

Lemma endswith_sep_has_sep (a : string) :
  Str.endswith a "/" = true -> Str.has_sep a = true.
Proof.
  induction a as [|c a IH]; [discriminate|].
  cbn [Str.endswith Str.has_sep].
  destruct (String.eqb_spec (String c a) "/") as [E|_].
  - inversion E; subst. reflexivity.
  - intros H. destruct (Ascii.eqb c Str.sep); auto.
Qed.

Lemma basename_plain (f : string) :
  Str.has_sep f = false -> Str.basename f = f.
Proof.
  destruct f as [|c f]; [reflexivity|].
  cbn [Str.has_sep Str.basename].
  destruct (Ascii.eqb c Str.sep); [discriminate|].
  intros ->. reflexivity.
Qed.

Lemma basename_after_sep (a f : string) :
  Str.has_sep f = false ->
  Str.endswith a "/" = true ->
  Str.basename (a ++ f)%string = f.
Proof.
  intros Hf. induction a as [|c a IH]; [discriminate|].
  cbn [Str.endswith]. destruct (String.eqb_spec (String c a) "/") as [E|_].
  - intros _. inversion E; subst. cbn. rewrite Hf. reflexivity.
  - intros H. cbn [append Str.basename].
    rewrite (has_sep_app_l a f (endswith_sep_has_sep a H)). auto.
Qed.

Lemma endswith_refl (s : string) : Str.endswith s s = true.
Proof. destruct s; cbn [Str.endswith]; rewrite String.eqb_refl; reflexivity. Qed.

Lemma endswith_app (a s : string) : Str.endswith (a ++ s)%string s = true.
Proof.
  induction a as [|c a IH]; cbn [append].
  - apply endswith_refl.
  - cbn [Str.endswith]. rewrite IH. destruct (String.eqb _ _); reflexivity.
Qed.

Lemma append_assoc (a b c : string) :
  ((a ++ b) ++ c = a ++ (b ++ c))%string.
Proof. induction a as [|x a IH]; cbn; [reflexivity | now rewrite IH]. Qed.

(** The last component of a joined path is the file name. *)
Lemma basename_path_join (root fname : string) :
  Str.has_sep fname = false ->
  Str.basename (Str.path_join root fname) = fname.
Proof.
  intros Hf. unfold Str.path_join, Str.startswith.
  assert (Hp : String.prefix "/" fname = false).
  { destruct fname as [|c f]; [reflexivity|].
    cbn [Str.has_sep] in Hf. cbn [String.prefix]. unfold Str.sep in Hf.
    destruct (Ascii.eqb_spec c "/"%char) as [->|Hc]; [discriminate|].
    destruct (ascii_dec "/" c) as [E|_]; [congruence | reflexivity]. }
  rewrite Hp.
  destruct (String.eqb_spec root "") as [->|_]; cbn [orb].
  - cbn. now apply basename_plain.
  - destruct (Str.endswith root "/") eqn:E.
    + now apply basename_after_sep.
    + rewrite <- append_assoc. apply basename_after_sep; [assumption|].
      apply endswith_app.
Qed.

(** ** The loader *)

Section LoaderFacts.

Variable walk : list (string * list string).
Variable pv_read : string -> result DataSet.

Lemma successes_app (l1 l2 : list string) :
  successes pv_read (l1 ++ l2) = successes pv_read l1 ++ successes pv_read l2.
Proof. apply flat_map_app. Qed.

Lemma load_files_spec (root : string) (files : list string) :
  forall acc,
    load_files pv_read acc root files =
    acc ++ successes pv_read (map (Str.path_join root) (filter is_part_name files)).
Proof.
  unfold load_files.
  induction files as [|f files IH]; intros acc; cbn [fold_left filter].
  - cbn. now rewrite app_nil_r.
  - rewrite IH. destruct (is_part_name f); [|reflexivity].
    cbn [map]. unfold load_one.
    change (Str.path_join root f :: ?l) with ([Str.path_join root f] ++ l).
    rewrite (successes_app [Str.path_join root f]), app_assoc.
    f_equal. cbn. destruct (pv_read (Str.path_join root f)); cbn;
      now rewrite ?app_nil_r.
Qed.

Lemma load_walk_spec (w : list (string * list string)) :
  forall acc,
    fold_left (fun parts rf => load_files pv_read parts (fst rf) (snd rf)) w acc =
    acc ++ successes pv_read (discovered w).
Proof.
  induction w as [|rf w IH]; intros acc; cbn [fold_left discovered flat_map].
  - cbn. now rewrite app_nil_r.
  - rewrite IH, load_files_spec, successes_app, app_assoc. reflexivity.
Qed.

(** The parts are the discovered files whose read returned, in order. *)
Lemma load_motorbike_parts_spec :
  load_motorbike_parts walk pv_read = successes pv_read (discovered walk).
Proof. unfold load_motorbike_parts. now rewrite load_walk_spec. Qed.

Lemma successes_failed_count (paths : list string) :
  (List.length (successes pv_read paths) +
   List.length (filter (fun p => negb (is_ok (pv_read p))) paths)
   = List.length paths)%nat.
Proof.
  induction paths as [|p paths IH]; [reflexivity|].
  cbn [successes flat_map filter]. fold (successes pv_read paths).
  destruct (pv_read p); cbn [is_ok negb List.length app]; lia.
Qed.

Lemma discovered_inv (path : string) :
  In path (discovered walk) ->
  exists root files fname,
    In (root, files) walk /\ In fname files /\ is_part_name fname = true /\
    path = Str.path_join root fname.
Proof.
  unfold discovered. rewrite in_flat_map.
  intros [[root files] [Hw Hp]]. cbn [fst snd] in Hp.
  apply in_map_iff in Hp as [fname [<- Hf]].
  apply filter_In in Hf as [Hf Hn].
  now exists root, files, fname.
Qed.

Lemma load_data_spec :
  load_data walk pv_read =
  match pv_read volume_file with
  | Ok volume_mesh => Ok (volume_mesh, Combined (load_motorbike_parts walk pv_read))
  | Raise e => Raise e
  end.
Proof. reflexivity. Qed.

End LoaderFacts.

Lemma successes_ext_in (pv_read pv_read' : string -> result DataSet)
    (paths : list string) :
  (forall path, In path paths -> pv_read path = pv_read' path) ->
  successes pv_read paths = successes pv_read' paths.
Proof.
  induction paths as [|p paths IH]; intros H; [reflexivity|].
  cbn [successes flat_map]. fold (successes pv_read paths) (successes pv_read' paths).
  rewrite (H p (or_introl eq_refl)), IH; [reflexivity|].
  intros path Hin. apply H. now right.
Qed.

(** Every discovered path ends in a file name that carries the suffix and is
    not the name of the volume file. *)
Lemma discovered_basename
    (walk : list (string * list string)) (path : string) :
  plain_names walk = true ->
  In path (discovered walk) ->
  Str.basename path <> "motorBike_500.vtk" /\
  Str.endswith (Str.basename path) "_500.vtk" = true.
Proof.
  intros Hplain Hin.
  destruct (discovered_inv walk path Hin) as (root & files & fname & Hw & Hf & Hn & ->).
  unfold plain_names in Hplain. rewrite forallb_forall in Hplain.
  specialize (Hplain _ Hw). cbn [snd] in Hplain.
  rewrite forallb_forall in Hplain. specialize (Hplain _ Hf).
  apply negb_true_iff in Hplain.
  rewrite (basename_path_join root fname Hplain).
  unfold is_part_name in Hn. apply andb_prop in Hn as [Hs Hd].
  split; [|exact Hs].
  intros ->. discriminate Hd.
Qed.

Lemma volume_file_not_discovered (walk : list (string * list string)) :
  plain_names walk = true -> ~ In volume_file (discovered walk).
Proof.
  intros Hplain Hin.
  apply (discovered_basename walk _ Hplain) in Hin as [Hin _].
  apply Hin. reflexivity.
Qed.



(** ** Plotter bookkeeping *)

Lemma last_azimuth_snoc (calls : list Call) (c : Call) :
  last_azimuth (calls ++ [c]) =
  match c with camera_azimuth a => Some a | _ => last_azimuth calls end.
Proof. unfold last_azimuth. rewrite fold_left_app. reflexivity. Qed.

Lemma last_azimuth_app (old new : list Call) :
  last_azimuth (old ++ new) =
  match last_azimuth new with Some a => Some a | None => last_azimuth old end.
Proof.
  induction new as [|c new IH] using rev_ind.
  - now rewrite app_nil_r.
  - rewrite app_assoc, !last_azimuth_snoc. destruct c; auto.
Qed.

Lemma slice_planes_app (old new : list Call) :
  slice_planes (old ++ new) = slice_planes old ++ slice_planes new.
Proof. apply flat_map_app. Qed.

Lemma scalar_bar_titles_app (old new : list Call) :
  scalar_bar_titles (old ++ new) = scalar_bar_titles old ++ scalar_bar_titles new.
Proof. apply flat_map_app. Qed.

Lemma without_azimuth_app (old new : list Call) :
  without_azimuth (old ++ new) = without_azimuth old ++ without_azimuth new.
Proof. apply filter_app. Qed.

Lemma cell_set_cell_same (c : Canvas) (id : CellId) (calls : list Call) :
  cell (set_cell c id calls) id = calls.
Proof. destruct id; reflexivity. Qed.

Lemma cell_set_cell_other (c : Canvas) (id id' : CellId) (calls : list Call) :
  id <> id' -> cell (set_cell c id calls) id' = cell c id'.
Proof. destruct id, id'; intros H; try reflexivity; congruence. Qed.

Lemma cell_extend_same (p : Plotter) (id : CellId) (calls : list Call) :
  cell (canvas (extend p id calls)) id = cell (canvas p) id ++ calls.
Proof. apply cell_set_cell_same. Qed.

Lemma cell_extend_other (p : Plotter) (id id' : CellId) (calls : list Call) :
  id <> id' -> cell (canvas (extend p id calls)) id' = cell (canvas p) id'.
Proof. apply cell_set_cell_other. Qed.

Lemma set_cell_twice (c : Canvas) (id : CellId) (l1 l2 : list Call) :
  set_cell (set_cell c id l1) id l2 = set_cell c id l2.
Proof. destruct id; reflexivity. Qed.

Lemma issue_extend (p : Plotter) (id : CellId) (calls : list Call) (c : Call) :
  issue (extend p id calls) c = extend p id (calls ++ [c]).
Proof.
  unfold issue, extend. cbn [active canvas movie frames].
  now rewrite cell_set_cell_same, set_cell_twice, app_assoc.
Qed.

Lemma subplot_spec (p : Plotter) :
  subplot p 0 0 = Ok (extend p Cell00 []) /\
  subplot p 0 1 = Ok (extend p Cell01 []) /\
  subplot p 1 0 = Ok (extend p Cell10 []) /\
  subplot p 1 1 = Ok (extend p Cell11 []).
Proof.
  destruct p as [a [c00 c01 c10 c11] m f]. unfold extend.
  cbn. rewrite !app_nil_r. repeat split; reflexivity.
Qed.

Lemma drawn_extend_new (id : CellId) (calls : list Call) :
  drawn (Ok (extend new_plotter id calls)) id = calls.
Proof. destruct id; reflexivity. Qed.

(** Brings both sides of a composer equation into the shape
    [Ok (extend plotter id calls)]. *)
Ltac normal_form :=
  cbv zeta;
  repeat first
    [ rewrite (proj1 (subplot_spec _))
    | rewrite (proj1 (proj2 (subplot_spec _)))
    | rewrite (proj1 (proj2 (proj2 (subplot_spec _))))
    | rewrite (proj2 (proj2 (proj2 (subplot_spec _)))) ];
  cbn [bind try_except];
  rewrite ?issue_extend, ?drawn_extend_new;
  cbn [app];
  reflexivity.

(** ** The composers: what each appends to its cell *)

Section ComposerFacts.

Variable streamlines_from_source : Integrator.
Variables (plotter : Plotter) (volume_mesh : DataSet) (bike_surface : Surface).

Lemma setup_velocity_view_extends (angle : Q) :
  setup_velocity_view plotter volume_mesh bike_surface angle =
  Ok (extend plotter Cell00
        (drawn (setup_velocity_view new_plotter volume_mesh bike_surface angle) Cell00)).
Proof. unfold setup_velocity_view. normal_form. Qed.

Lemma setup_pressure_view_extends (angle : Q) :
  setup_pressure_view plotter volume_mesh bike_surface angle =
  Ok (extend plotter Cell01
        (drawn (setup_pressure_view new_plotter volume_mesh bike_surface angle) Cell01)).
Proof. unfold setup_pressure_view. normal_form. Qed.

Lemma setup_mesh_view_extends (angle : Q) :
  setup_mesh_view plotter bike_surface angle =
  Ok (extend plotter Cell10
        (drawn (setup_mesh_view new_plotter bike_surface angle) Cell10)).
Proof. unfold setup_mesh_view. normal_form. Qed.

Lemma setup_flow_analysis_extends (angle : Q) :
  setup_flow_analysis streamlines_from_source plotter volume_mesh bike_surface angle =
  Ok (extend plotter Cell11
        (drawn (setup_flow_analysis streamlines_from_source new_plotter
                  volume_mesh bike_surface angle) Cell11)).
Proof.
  unfold setup_flow_analysis.
  destruct (flow_attribute volume_mesh) as [[scalars cmap] field_name].
  destruct (streamlines_from_source _ _ _ _ _); normal_form.
Qed.

Local Open Scope Q_scope.

(** What each composer draws on a cleared cell. *)

Lemma velocity_cell (angle : Q) :
  drawn (setup_velocity_view new_plotter volume_mesh bike_surface angle) Cell00 =
  let c := center volume_mesh in
  [add_text "Velocity Field (m/s)" "upper_left" 12 "black";
   add_mesh (GSlice volume_mesh c (mkVec3 0 1 0)) (ByScalars "U" "jet" 0.9 None);
   add_mesh (GSlice volume_mesh (mkVec3 (x0 c + 1.0) (x1 c) (x2 c)) (mkVec3 1 0 0))
            (ByScalars "U" "coolwarm" 0.6 None);
   add_mesh (GSlice volume_mesh (mkVec3 (x0 c) (x1 c) 0.8) (mkVec3 0 0 1))
            (ByScalars "U" "plasma" 0.4 None);
   add_mesh (GSurface bike_surface) (Solid "silver" 0.7 "black" 0.2);
   add_scalar_bar "Velocity" 0.85 0.05 0.3 8 7;
   set_background "white";
   view_isometric;
   camera_azimuth (angle * 0.5);
   camera_elevation 20;
   camera_zoom 1.2].
Proof. unfold setup_velocity_view. normal_form. Qed.

Lemma pressure_cell (angle : Q) :
  drawn (setup_pressure_view new_plotter volume_mesh bike_surface angle) Cell01 =
  let c := center volume_mesh in
  [add_text "Pressure Field (Pa)" "upper_left" 12 "black";
   add_mesh (GSlice volume_mesh (mkVec3 (x0 c + 0.5) (x1 c) (x2 c)) (mkVec3 1 0 0))
            (ByScalars "p" "coolwarm" 0.9 None);
   add_mesh (GSlice volume_mesh (mkVec3 (x0 c - 0.5) (x1 c) (x2 c)) (mkVec3 1 0 0))
            (ByScalars "p" "RdBu" 0.6 None);
   add_mesh (GSurface bike_surface) (Solid "darkgray" 0.5 "black" 0.3);
   add_scalar_bar "Pressure" 0.85 0.05 0.3 8 7;
   set_background "white";
   view_isometric;
   camera_azimuth (angle * 0.5);
   camera_elevation 20;
   camera_zoom 1.2].
Proof. unfold setup_pressure_view. normal_form. Qed.

Lemma mesh_cell (angle : Q) :
  drawn (setup_mesh_view new_plotter bike_surface angle) Cell10 =
  [add_text "Motorbike Geometry" "upper_left" 12 "black";
   add_mesh (GSurface bike_surface) (Solid "silver" 0.9 "black" 0.4);
   set_background "white";
   view_isometric;
   camera_azimuth angle;
   camera_elevation 25;
   camera_zoom 1.3].
Proof. unfold setup_mesh_view. normal_form. Qed.

Lemma flow_cell (angle : Q) :
  drawn (setup_flow_analysis streamlines_from_source new_plotter
           volume_mesh bike_surface angle) Cell11 =
  let c := center volume_mesh in
  let '(scalars, cmap, field_name) := flow_attribute volume_mesh in
  [add_text "Flow Analysis & Wake" "upper_left" 12 "black";
   add_mesh (GSlice volume_mesh (mkVec3 (x0 c + 2.0) (x1 c) (x2 c)) (mkVec3 1 0 0))
            (ByScalars scalars cmap 0.8 None)] ++
  match streamlines_from_source volume_mesh (seed_points c) "U" 100%Z "forward" with
  | Ok streamlines =>
      [add_mesh (GStreamlines streamlines) (ByScalars "U" "rainbow" 0.9 (Some 2))]
  | Raise _ => []
  end ++
  [add_mesh (GSurface bike_surface) (Solid "darkblue" 0.6 "navy" 0.3);
   add_scalar_bar field_name 0.85 0.05 0.3 8 7;
   set_background "lightgray";
   view_isometric;
   camera_azimuth (angle * 0.3);
   camera_elevation 15;
   camera_zoom 1.0].
Proof.
  unfold setup_flow_analysis.
  destruct (flow_attribute volume_mesh) as [[scalars cmap] field_name].
  destruct (streamlines_from_source _ _ _ _ _); normal_form.
Qed.

End ComposerFacts.

(** ** One frame *)

Section FrameFacts.

Variable streamlines_from_source : Integrator.

Lemma clear_all_spec (p : Plotter) :
  clear_all p = Ok (mkPlotter Cell11 empty_canvas (movie p) (frames p)).
Proof. destruct p as [a [c00 c01 c10 c11] m f]. reflexivity. Qed.

Lemma compose_cleared (m : option (string * Z * Z)) (f : list Canvas)
    (volume_mesh : DataSet) (bike_surface : Surface) (angle : Q) :
  compose streamlines_from_source (mkPlotter Cell11 empty_canvas m f)
          volume_mesh bike_surface angle =
  Ok (mkPlotter Cell11
        (composed_canvas streamlines_from_source volume_mesh bike_surface angle)
        m f).
Proof.
  unfold compose.
  rewrite setup_velocity_view_extends. cbn [bind].
  rewrite setup_pressure_view_extends. cbn [bind].
  rewrite setup_mesh_view_extends. cbn [bind].
  rewrite setup_flow_analysis_extends.
  reflexivity.
Qed.

(** With a movie open, a frame is always committed: no composer raises. *)
Lemma render_frame_spec (p : Plotter) (volume_mesh : DataSet)
    (bike_surface : Surface) (angle : Q) :
  movie p <> None ->
  render_frame streamlines_from_source p volume_mesh bike_surface angle =
  let c := composed_canvas streamlines_from_source volume_mesh bike_surface angle in
  Ok (mkPlotter Cell11 c (movie p) (frames p ++ [c])).
Proof.
  intros Hm. unfold render_frame.
  rewrite clear_all_spec. cbn [bind].
  rewrite compose_cleared. cbn [bind].
  unfold write_frame. cbn [movie frames canvas active].
  destruct (movie p); [reflexivity | congruence].
Qed.

End FrameFacts.

(** ** The composers: azimuth, attribute selection, streamline failure *)

Section ComposerClaims.

Variable streamlines_from_source : Integrator.

Local Open Scope Q_scope.

Lemma flow_cell_azimuth (volume_mesh : DataSet) (bike_surface : Surface)
    (angle : Q) :
  last_azimuth
    (drawn (setup_flow_analysis streamlines_from_source new_plotter
              volume_mesh bike_surface angle) Cell11) = Some (angle * 0.3).
Proof.
  rewrite flow_cell. cbv zeta.
  destruct (flow_attribute volume_mesh) as [[scalars cmap] field_name].
  rewrite app_assoc, last_azimuth_app. reflexivity.
Qed.

(** C3, as the code has it.  Each composer returns and leaves its cell's
    camera azimuth at a fixed multiple of the frame angle: 0.5 for the
    velocity cell, 0.5 for the pressure cell, 1 (the angle itself) for the
    geometry cell and 0.3 for the flow-analysis cell.  The geometry cell is
    the only one on the unscaled angle: for a non-zero angle the three
    others differ from it. *)
Theorem azimuth_multipliers
    (plotter : Plotter) (volume_mesh : DataSet) (bike_surface : Surface)
    (angle : Q) :
  last_azimuth (drawn (setup_velocity_view plotter volume_mesh bike_surface angle) Cell00)
    = Some (angle * 0.5) /\
  last_azimuth (drawn (setup_pressure_view plotter volume_mesh bike_surface angle) Cell01)
    = Some (angle * 0.5) /\
  last_azimuth (drawn (setup_mesh_view plotter bike_surface angle) Cell10)
    = Some angle /\
  last_azimuth (drawn (setup_flow_analysis streamlines_from_source plotter
                         volume_mesh bike_surface angle) Cell11)
    = Some (angle * 0.3) /\
  (~ angle == 0 -> ~ angle * 0.5 == angle /\ ~ angle * 0.3 == angle).
Proof.
  rewrite setup_velocity_view_extends, setup_pressure_view_extends,
    setup_mesh_view_extends, setup_flow_analysis_extends.
  cbn [drawn]. rewrite !cell_extend_same, !last_azimuth_app.
  rewrite flow_cell_azimuth, velocity_cell, pressure_cell, mesh_cell.
  split; [reflexivity|]. split; [reflexivity|]. split; [reflexivity|].
  split; [reflexivity|].
  intros Hnz. split; intros H; apply Hnz; lra.
Qed.

Lemma contains_In (names : list string) (x : string) :
  contains names x = true <-> In x names.
Proof.
  unfold contains. rewrite existsb_exists. split.
  - intros [y [Hy E]]. apply String.eqb_eq in E. now subst.
  - intros H. exists x. split; [assumption | apply String.eqb_refl].
Qed.

(** C2.  The flow-analysis composer colours its one slice, the wake slice,
    by the attribute that [flow_attribute] selects, on the colour scale
    that goes with it, and titles the scalar bar accordingly.  The
    selection is by priority: omega when the field has it (whether or not
    it has k), else k, else U.  A field with exactly U and p is coloured by
    U on viridis under the title Velocity. *)
Theorem flow_attribute_priority
    (plotter : Plotter) (volume_mesh : DataSet) (bike_surface : Surface)
    (angle : Q) :
  (exists scalars cmap title new,
      flow_attribute volume_mesh = (scalars, cmap, title) /\
      setup_flow_analysis streamlines_from_source plotter volume_mesh
        bike_surface angle = Ok (extend plotter Cell11 new) /\
      In (add_mesh
            (GSlice volume_mesh
               (mkVec3 (x0 (center volume_mesh) + 2.0) (x1 (center volume_mesh))
                       (x2 (center volume_mesh)))
               (mkVec3 1 0 0))
            (ByScalars scalars cmap 0.8 None)) new /\
      List.length (slice_planes new) = 1%nat /\
      scalar_bar_titles new = [title]) /\
  (In "omega"%string (array_names volume_mesh) ->
     flow_attribute volume_mesh = ("omega", "turbo", "Turbulence")%string) /\
  (~ In "omega"%string (array_names volume_mesh) ->
   In "k"%string (array_names volume_mesh) ->
     flow_attribute volume_mesh = ("k", "hot", "Turbulent Energy")%string) /\
  (~ In "omega"%string (array_names volume_mesh) ->
   ~ In "k"%string (array_names volume_mesh) ->
     flow_attribute volume_mesh = ("U", "viridis", "Velocity")%string) /\
  (array_names volume_mesh = ["U"; "p"]%string ->
     flow_attribute volume_mesh = ("U", "viridis", "Velocity")%string).
Proof.
  split; [|split; [|split; [|split]]].
  - destruct (flow_attribute volume_mesh) as [[scalars cmap] title] eqn:E.
    exists scalars, cmap, title. eexists. split; [reflexivity|].
    split; [apply setup_flow_analysis_extends|].
    rewrite flow_cell, E. cbv zeta.
    split; [right; left; reflexivity|].
    rewrite !slice_planes_app, !scalar_bar_titles_app.
    destruct (streamlines_from_source _ _ _ _ _); split; reflexivity.
  - intros H. unfold flow_attribute.
    apply contains_In in H. now rewrite H.
  - intros Ho Hk. unfold flow_attribute.
    destruct (contains (array_names volume_mesh) "omega") eqn:E.
    + apply contains_In in E. contradiction.
    + apply contains_In in Hk. now rewrite Hk.
  - intros Ho Hk. unfold flow_attribute.
    destruct (contains (array_names volume_mesh) "omega") eqn:E.
    + apply contains_In in E. contradiction.
    + destruct (contains (array_names volume_mesh) "k") eqn:E'; [|reflexivity].
      apply contains_In in E'. contradiction.
  - intros H. unfold flow_attribute. now rewrite H.
Qed.

(** C4.  When the streamline integration raises, whatever the exception,
    the flow-analysis composer returns normally and its cell receives the
    title, the wake slice, the surface overlay, the scalar bar, the
    background and the camera settings, and no streamlines.  With a movie
    open the frame is committed: the exception does not leave the frame. *)
Theorem streamline_failure_swallowed
    (plotter : Plotter) (volume_mesh : DataSet) (bike_surface : Surface)
    (angle : Q) (e : Exn) :
  streamlines_from_source volume_mesh (seed_points (center volume_mesh))
    "U" 100%Z "forward" = Raise e ->
  exists scalars cmap title,
    flow_attribute volume_mesh = (scalars, cmap, title) /\
    setup_flow_analysis streamlines_from_source plotter volume_mesh
      bike_surface angle =
    Ok (extend plotter Cell11
          [add_text "Flow Analysis & Wake" "upper_left" 12 "black";
           add_mesh
             (GSlice volume_mesh
                (mkVec3 (x0 (center volume_mesh) + 2.0) (x1 (center volume_mesh))
                        (x2 (center volume_mesh)))
                (mkVec3 1 0 0))
             (ByScalars scalars cmap 0.8 None);
           add_mesh (GSurface bike_surface) (Solid "darkblue" 0.6 "navy" 0.3);
           add_scalar_bar title 0.85 0.05 0.3 8 7;
           set_background "lightgray";
           view_isometric;
           camera_azimuth (angle * 0.3);
           camera_elevation 15;
           camera_zoom 1.0]) /\
    (movie plotter <> None ->
     exists committed,
       render_frame streamlines_from_source plotter volume_mesh bike_surface angle =
       Ok committed /\
       frames committed = frames plotter ++ [canvas committed]).
Proof.
  intros Hraise.
  destruct (flow_attribute volume_mesh) as [[scalars cmap] title] eqn:E.
  exists scalars, cmap, title. split; [reflexivity|]. split.
  - rewrite setup_flow_analysis_extends, flow_cell. cbv zeta.
    rewrite E, Hraise. reflexivity.
  - intros Hm. rewrite (render_frame_spec _ _ _ _ _ Hm). cbv zeta.
    eexists. split; reflexivity.
Qed.

End ComposerClaims.

(** ** The checkpoint and the loop *)

Lemma progress_small (total_frames i : Z) :
  0 <= total_frames < 10 ->
  Py.floordiv total_frames 10 = Ok 0 /\
  progress total_frames i = Raise ZeroDivisionError.
Proof.
  intros H. assert (E : total_frames / 10 = 0) by (apply Z.div_small; lia).
  unfold progress, Py.floordiv. cbn [Z.eqb bind]. rewrite E. split; reflexivity.
Qed.

Lemma progress_large (total_frames i : Z) :
  10 <= total_frames ->
  exists tenth message,
    Py.floordiv total_frames 10 = Ok tenth /\ 0 < tenth /\
    Py.mod_ (i + 1) tenth = Ok ((i + 1) mod tenth) /\
    progress total_frames i = Ok message.
Proof.
  intros H.
  assert (Hd : 0 < total_frames / 10) by (apply Z.div_str_pos; lia).
  exists (total_frames / 10).
  unfold progress, Py.floordiv, Py.mod_, Py.truediv. cbn [Z.eqb bind].
  destruct (Z.eqb_spec (total_frames / 10) 0) as [E|_]; [lia|]. cbn [bind].
  destruct (Z.eqb_spec total_frames 0) as [E|_]; [lia|].
  destruct ((i + 1) mod (total_frames / 10) =? 0)%Z; cbn [bind];
    eexists; repeat split; try reflexivity; assumption.
Qed.

Section LoopFacts.

Variable streamlines_from_source : Integrator.

Lemma frame_body_spec (total_frames i : Z) (angle : Q) (st : Locals) :
  movie (st_plotter st) <> None ->
  frame_body streamlines_from_source total_frames (i, angle) st =
  match progress total_frames i with
  | Ok message =>
      let c := composed_canvas streamlines_from_source (st_volume_mesh st)
                 (st_bike_surface st) angle in
      Ok (mkLocals (st_volume_mesh st) (st_bike_surface st)
            (mkPlotter Cell11 c (movie (st_plotter st))
                       (frames (st_plotter st) ++ [c]))
            (match message with
             | Some line => st_stdout st ++ [line]
             | None => st_stdout st
             end))
  | Raise e => Raise e
  end.
Proof.
  intros Hm. unfold frame_body.
  rewrite (render_frame_spec _ _ _ _ _ Hm). cbn [bind].
  destruct (progress total_frames i); reflexivity.
Qed.

(** A loop all of whose checkpoints return: the datasets are handed on
    untouched, one canvas is committed per item and the printed lines are
    appended in order. *)
Lemma loop_spec (total_frames : Z) (items : list (Z * Q)) :
  forall st,
    movie (st_plotter st) <> None ->
    (forall ia, In ia items -> is_ok (progress total_frames (fst ia)) = true) ->
    exists st',
      Py.for_each items (frame_body streamlines_from_source total_frames) st = Ok st' /\
      st_volume_mesh st' = st_volume_mesh st /\
      st_bike_surface st' = st_bike_surface st /\
      movie (st_plotter st') = movie (st_plotter st) /\
      frames (st_plotter st') =
        frames (st_plotter st) ++
        map (fun ia => composed_canvas streamlines_from_source (st_volume_mesh st)
                         (st_bike_surface st) (snd ia)) items /\
      st_stdout st' = st_stdout st ++ printed total_frames (map fst items).
Proof.
  induction items as [|[i angle] items IH]; intros st Hm Hok.
  - exists st. cbn [Py.for_each map printed flat_map]. rewrite !app_nil_r.
    repeat split; reflexivity.
  - cbn [Py.for_each]. rewrite (frame_body_spec _ _ _ _ Hm).
    pose proof (Hok (i, angle) (or_introl eq_refl)) as Hi. cbn [fst] in Hi.
    destruct (progress total_frames i) as [message|e] eqn:E; [|discriminate].
    cbv zeta.
    set (c := composed_canvas streamlines_from_source (st_volume_mesh st)
                (st_bike_surface st) angle).
    set (out := match message with
                | Some line => st_stdout st ++ [line]
                | None => st_stdout st
                end).
    set (st1 := mkLocals (st_volume_mesh st) (st_bike_surface st)
                  (mkPlotter Cell11 c (movie (st_plotter st))
                             (frames (st_plotter st) ++ [c])) out).
    destruct (IH st1) as (st' & Hrun & Hv & Hs & Hmv & Hf & Ho).
    { exact Hm. }
    { intros ia Hin. apply Hok. now right. }
    exists st'. rewrite Hrun.
    subst st1. cbn [st_volume_mesh st_bike_surface st_plotter st_stdout movie frames] in *.
    repeat split; try assumption.
    + rewrite Hf, <- app_assoc. reflexivity.
    + rewrite Ho. cbn [map fst printed flat_map]. rewrite E.
      subst out. destruct message; cbn [app]; rewrite <- ?app_assoc; reflexivity.
Qed.

Lemma range_length (n : Z) : List.length (Py.range n) = Z.to_nat n.
Proof. unfold Py.range. now rewrite length_map, length_seq. Qed.

Lemma in_range (n i : Z) : In i (Py.range n) <-> 0 <= i < n.
Proof.
  unfold Py.range. rewrite in_map_iff. split.
  - intros [k [<- Hk]]. apply in_seq in Hk. lia.
  - intros H. exists (Z.to_nat i). split; [lia|]. apply in_seq. lia.
Qed.

Lemma enumerate_fst {A : Type} (xs : list A) :
  map fst (Py.enumerate xs) = Py.range (Z.of_nat (List.length xs)).
Proof.
  unfold Py.enumerate.
  assert (H : List.length (Py.range (Z.of_nat (List.length xs))) = List.length xs)
    by (rewrite range_length; lia).
  revert H. generalize (Py.range (Z.of_nat (List.length xs))).
  induction xs as [|x xs IH]; intros [|i l] H; try discriminate; [reflexivity|].
  cbn. f_equal. apply IH. now injection H.
Qed.

Lemma enumerate_snd {A : Type} (xs : list A) :
  map snd (Py.enumerate xs) = xs.
Proof.
  unfold Py.enumerate.
  assert (H : List.length (Py.range (Z.of_nat (List.length xs))) = List.length xs)
    by (rewrite range_length; lia).
  revert H. generalize (Py.range (Z.of_nat (List.length xs))).
  induction xs as [|x xs IH]; intros [|i l] H; try discriminate; [reflexivity|].
  cbn. f_equal. apply IH. now injection H.
Qed.

Lemma linspace_spec (start stop : Q) (num : Z) :
  0 <= num ->
  exists angles,
    Py.linspace start stop num = Ok angles /\
    List.length angles = Z.to_nat num /\
    forall i, 0 <= i < num ->
      (nth (Z.to_nat i) angles 0 ==
       start + inject_Z i * ((stop - start) / inject_Z num))%Q.
Proof.
  intros H. unfold Py.linspace.
  destruct (Z.ltb_spec num 0) as [Hn|_]; [lia|].
  eexists. split; [reflexivity|]. split.
  - now rewrite length_map, range_length.
  - intros i Hi.
    set (f := fun i : Z => (inject_Z i * ((stop - start) / inject_Z num) + start)%Q).
    rewrite (nth_indep _ 0%Q (f 0)) by (rewrite length_map, range_length; lia).
    rewrite map_nth. unfold Py.range.
    rewrite (nth_indep _ 0 (Z.of_nat 0)) by (rewrite length_map, length_seq; lia).
    rewrite map_nth, seq_nth by lia.
    unfold f. rewrite Nat.add_0_l, Z2Nat.id by lia. ring.
Qed.

(** The whole run, when the volume file reads and every checkpoint
    returns. *)
Lemma create_animation_with_spec
    (walk : list (string * list string)) (pv_read : string -> result DataSet)
    (fps duration : Z) (volume : DataSet) :
  pv_read volume_file = Ok volume ->
  10 <= fps * duration ->
  exists st angles,
    create_animation_with walk pv_read streamlines_from_source fps duration = Ok st /\
    Py.linspace 0 360 (fps * duration) = Ok angles /\
    st_volume_mesh st = volume /\
    st_bike_surface st = Combined (load_motorbike_parts walk pv_read) /\
    frames (st_plotter st) =
      map (composed_canvas streamlines_from_source volume
             (Combined (load_motorbike_parts walk pv_read))) angles /\
    st_stdout st = printed (fps * duration) (Py.range (Z.of_nat (List.length angles))).
Proof.
  intros Hread Htotal.
  destruct (linspace_spec 0 360 (fps * duration)) as (angles & Hl & _); [lia|].
  unfold create_animation_with. rewrite load_data_spec, Hread. cbn [bind].
  rewrite Hl. cbn [bind].
  match goal with |- context [Py.for_each _ _ ?s] => set (st0 := s) end.
  destruct (loop_spec (fps * duration) (Py.enumerate angles) st0)
    as (st' & Hrun & Hv & Hs & Hmv & Hf & Ho).
  { subst st0. cbn. discriminate. }
  { intros ia _.
    destruct (progress_large (fps * duration) (fst ia) Htotal)
      as (tenth & message & _ & _ & _ & ->). reflexivity. }
  rewrite Hrun. cbn [bind]. eexists. exists angles.
  split; [reflexivity|]. split; [reflexivity|].
  cbn [st_volume_mesh st_bike_surface st_plotter st_stdout].
  subst st0. cbn in Hv, Hs, Hf, Ho.
  rewrite Hv, Hs. cbn [close frames].
  repeat split.
  - rewrite Hf. rewrite <- (enumerate_snd angles) at 2. now rewrite map_map.
  - rewrite Ho. now rewrite enumerate_fst.
Qed.

End LoopFacts.

(** ** The animation sequence *)

Lemma progress_200 (i : Z) :
  0 <= i < 200 ->
  progress 200 i =
  Ok (if ((i + 1) mod 20 =? 0)%Z
      then Some ("Progress: " ++ Py.str ((i + 1) / 2) ++ "%")%string
      else None).
Proof.
  intros Hi. unfold progress. cbn [Py.floordiv Z.eqb bind].
  change (200 / 10) with 20. unfold Py.mod_. cbn [Z.eqb bind].
  destruct (Z.eqb_spec ((i + 1) mod 20) 0) as [E|_]; [|reflexivity].
  assert (Hk : exists k, 1 <= k <= 10 /\ i = 20 * k - 1).
  { exists ((i + 1) / 20).
    pose proof (Z.div_mod (i + 1) 20 ltac:(lia)) as D. lia. }
  destruct Hk as (k & Hk & ->).
  assert (Hcases : k = 1 \/ k = 2 \/ k = 3 \/ k = 4 \/ k = 5 \/ k = 6 \/ k = 7 \/
                   k = 8 \/ k = 9 \/ k = 10) by lia.
  repeat (destruct Hcases as [->|Hcases]; [vm_compute; reflexivity|]).
  subst k. vm_compute. reflexivity.
Qed.

Section SequenceClaims.

Variable walk : list (string * list string).
Variable pv_read : string -> result DataSet.
Variable streamlines_from_source : Integrator.

Local Open Scope Q_scope.

Lemma composed_canvas_azimuths (volume_mesh : DataSet) (bike_surface : Surface)
    (angle : Q) :
  let c := composed_canvas streamlines_from_source volume_mesh bike_surface angle in
  last_azimuth (cell c Cell00) = Some (angle * 0.5) /\
  last_azimuth (cell c Cell01) = Some (angle * 0.5) /\
  last_azimuth (cell c Cell10) = Some angle /\
  last_azimuth (cell c Cell11) = Some (angle * 0.3).
Proof.
  cbv zeta. unfold composed_canvas. cbn [cell cell00 cell01 cell10 cell11].
  rewrite flow_cell_azimuth, velocity_cell, pressure_cell, mesh_cell.
  repeat split; reflexivity.
Qed.

Lemma azimuth_track_spec (id : CellId) (p : Plotter)
    (volume_mesh : DataSet) (bike_surface : Surface) (angles : list Q) :
  frames p =
    map (composed_canvas streamlines_from_source volume_mesh bike_surface) angles ->
  azimuth_track id p =
  map (fun angle =>
         Some (match id with
               | Cell00 => angle * 0.5
               | Cell01 => angle * 0.5
               | Cell10 => angle
               | Cell11 => angle * 0.3
               end)) angles.
Proof.
  intros Hf. unfold azimuth_track. rewrite Hf, map_map. apply map_ext.
  intros angle.
  destruct (composed_canvas_azimuths volume_mesh bike_surface angle)
    as (H00 & H01 & H10 & H11).
  destruct id; assumption.
Qed.

(** C1, as the code has it.  For F = 20 * 10 = 200 the run commits F frames
    from F angles, the i-th being i * 1.8 degrees (i = 0..F-1): evenly
    spaced by 360/F over 360 degrees with the end point left out.  In
    frame i the geometry cell's azimuth is that angle and every other cell's
    is its multiplier times that angle.  So each cell's azimuth advances by
    multiplier * 1.8 per frame; F such steps make multiplier * 360 (360 for
    the geometry cell), and the last frame stands at multiplier * 358.2. *)
Theorem animation_azimuths (volume : DataSet) :
  pv_read volume_file = Ok volume ->
  exists st angles,
    create_animation walk pv_read streamlines_from_source = Ok st /\
    Py.linspace 0 360 (20 * 10) = Ok angles /\
    List.length angles = 200%nat /\
    List.length (frames (st_plotter st)) = 200%nat /\
    (forall i, (0 <= i < 200)%Z ->
       nth (Z.to_nat i) angles 0 == inject_Z i * 1.8) /\
    azimuth_track Cell00 (st_plotter st) = map (fun a => Some (a * 0.5)) angles /\
    azimuth_track Cell01 (st_plotter st) = map (fun a => Some (a * 0.5)) angles /\
    azimuth_track Cell10 (st_plotter st) = map (fun a => Some a) angles /\
    azimuth_track Cell11 (st_plotter st) = map (fun a => Some (a * 0.3)) angles /\
    (forall id m,
        In (id, m) [(Cell00, 0.5); (Cell01, 0.5); (Cell10, 1); (Cell11, 0.3)] ->
        let track := values (azimuth_track id (st_plotter st)) in
        List.length track = 200%nat /\
        forallb (fun step => Qeq_bool step (m * 1.8)) (steps track) = true /\
        200 * (m * 1.8) == m * 360 /\
        last track 0 == m * 358.2).
Proof.
  intros Hread.
  destruct (create_animation_with_spec streamlines_from_source walk pv_read
              20 10 volume Hread ltac:(lia))
    as (st & angles & Hrun & Hl & _ & _ & Hf & _).
  exists st, angles.
  destruct (linspace_spec 0 360 (20 * 10) ltac:(lia)) as (angles' & Hl' & Hlen & Hnth).
  rewrite Hl in Hl'. injection Hl' as <-.
  split; [exact Hrun|]. split; [exact Hl|]. split; [exact Hlen|].
  split; [rewrite Hf, length_map; exact Hlen|].
  split.
  { intros i Hi. rewrite (Hnth i Hi).
    change (inject_Z (20 * 10)) with 200.
    generalize (inject_Z i). intros x. field. }
  pose proof (fun id => azimuth_track_spec id (st_plotter st) _ _ _ Hf) as Ht.
  split; [exact (Ht Cell00)|]. split; [exact (Ht Cell01)|].
  split; [exact (Ht Cell10)|]. split; [exact (Ht Cell11)|].
  intros id m Hin. cbv zeta. rewrite (Ht id).
  vm_compute in Hl. injection Hl as <-.
  cbn [In] in Hin.
  destruct Hin as [[= <- <-]|[[= <- <-]|[[= <- <-]|[[= <- <-]|[]]]]];
    vm_compute; repeat split; reflexivity.
Qed.

(** C6.  With fps = 20 and duration = 10 the run commits 200 frames and
    prints exactly ten lines, in this order: 10%, 20%, ..., 100%.  At the
    frame of 0-based index i a line is printed exactly when i + 1 is a
    multiple of 200 // 10 = 20, and it shows (i + 1) / 2 percent. *)
Theorem progress_report (volume : DataSet) :
  pv_read volume_file = Ok volume ->
  exists st,
    create_animation walk pv_read streamlines_from_source = Ok st /\
    List.length (frames (st_plotter st)) = 200%nat /\
    st_stdout st =
      ["Progress: 10%"; "Progress: 20%"; "Progress: 30%"; "Progress: 40%";
       "Progress: 50%"; "Progress: 60%"; "Progress: 70%"; "Progress: 80%";
       "Progress: 90%"; "Progress: 100%"]%string /\
    Py.floordiv (20 * 10) 10 = Ok 20%Z /\
    (forall i, (0 <= i < 20 * 10)%Z ->
       progress (20 * 10) i =
       Ok (if ((i + 1) mod 20 =? 0)%Z
           then Some ("Progress: " ++ Py.str ((i + 1) / 2) ++ "%")%string
           else None)).
Proof.
  intros Hread.
  destruct (create_animation_with_spec streamlines_from_source walk pv_read
              20 10 volume Hread ltac:(lia))
    as (st & angles & Hrun & Hl & _ & _ & Hf & Ho).
  destruct (linspace_spec 0 360 (20 * 10) ltac:(lia)) as (angles' & Hl' & Hlen & _).
  rewrite Hl in Hl'. injection Hl' as <-.
  exists st. split; [exact Hrun|].
  split; [rewrite Hf, length_map; exact Hlen|].
  split; [rewrite Ho, Hlen; vm_compute; reflexivity|].
  split; [reflexivity|].
  intros i Hi. apply progress_200. lia.
Qed.

End SequenceClaims.

(** ** Worked examples for the sequence and the composers *)

Local Open Scope Q_scope.

(** On the demo directory the run commits 200 frames; the geometry azimuth of
    the last one is 358.2. *)
Lemma animation_azimuths_demo :
  Demo.pv_read volume_file = Ok Demo.volume /\
  exists st angles,
    create_animation Demo.walk Demo.pv_read Demo.failing = Ok st /\
    Py.linspace 0 360 (20 * 10) = Ok angles /\
    List.length (frames (st_plotter st)) = 200%nat /\
    last (values (azimuth_track Cell10 (st_plotter st))) 0 == 1 * 358.2.
Proof.
  split; [reflexivity|].
  destruct (animation_azimuths Demo.walk Demo.pv_read Demo.failing Demo.volume eq_refl)
    as (st & angles & Hrun & Hl & _ & Hlen & _ & _ & _ & _ & _ & Hsteps).
  exists st, angles. repeat split; try assumption.
  apply (Hsteps Cell10 1). cbn. auto.
Defined.

(** The reading of C1 that the code does not meet.  On the demo run the 200
    geometry azimuths add up to 35820, the azimuth of the last frame is
    358.2 and the changes from frame to frame add up to 358.2: none of these
    is 360. *)
Lemma azimuth_total_counterexample :
  exists st track,
    create_animation Demo.walk Demo.pv_read Demo.failing = Ok st /\
    values (azimuth_track Cell10 (st_plotter st)) = track /\
    List.length track = 200%nat /\
    Qsum track == 35820 /\ ~ Qsum track == 360 /\
    last track 0 == 358.2 /\ ~ last track 0 == 360 /\
    Qsum (steps track) == 358.2 /\ ~ Qsum (steps track) == 360.
Proof.
  eexists. eexists.
  split; [vm_compute; reflexivity|].
  split; [vm_compute; reflexivity|].
  split; [reflexivity|].
  split; [vm_compute; reflexivity|].
  split; [vm_compute; discriminate|].
  split; [vm_compute; reflexivity|].
  split; [vm_compute; discriminate|].
  split; [vm_compute; reflexivity|].
  vm_compute; discriminate.
Qed.

(** At a frame angle of 90 degrees every composer returns and the four
    azimuths are 45, 45, 90 and 27. *)
Lemma azimuth_multipliers_demo :
  ~ 90 == 0 /\
  last_azimuth (drawn (setup_velocity_view new_plotter Demo.volume (Combined []) 90) Cell00)
    = Some (90 * 0.5) /\
  ~ 90 * 0.5 == 90.
Proof.
  destruct (azimuth_multipliers Demo.failing new_plotter Demo.volume (Combined []) 90)
    as (Hv & _ & _ & _ & Honly).
  assert (Hnz : ~ 90 == 0) by (vm_compute; discriminate).
  split; [exact Hnz|]. split; [exact Hv|]. exact (proj1 (Honly Hnz)).
Defined.

(** The order given in C3 fails: at 90 degrees the velocity cell is at 45,
    not at 1.0 * 90, and the geometry cell is at 90, not at 0.5 * 90. *)
Lemma azimuth_order_counterexample :
  exists velocity geometry,
    last_azimuth (drawn (setup_velocity_view new_plotter Demo.volume (Combined []) 90) Cell00)
      = Some velocity /\
    last_azimuth (drawn (setup_mesh_view new_plotter (Combined []) 90) Cell10)
      = Some geometry /\
    velocity == 45 /\ ~ velocity == 1.0 * 90 /\
    geometry == 90 /\ ~ geometry == 0.5 * 90.
Proof.
  eexists. eexists.
  split; [vm_compute; reflexivity|].
  split; [vm_compute; reflexivity|].
  split; [vm_compute; reflexivity|].
  split; [vm_compute; discriminate|].
  split; [vm_compute; reflexivity|].
  vm_compute; discriminate.
Qed.

(** A field with both turbulence scalars is coloured by omega; the demo
    field, with U and p only, by U. *)
Lemma flow_attribute_priority_demo :
  In "omega"%string (array_names Demo.turbulent) /\
  In "k"%string (array_names Demo.turbulent) /\
  flow_attribute Demo.turbulent = ("omega", "turbo", "Turbulence")%string /\
  array_names Demo.volume = ["U"; "p"]%string /\
  flow_attribute Demo.volume = ("U", "viridis", "Velocity")%string.
Proof.
  destruct (flow_attribute_priority Demo.integrating new_plotter Demo.turbulent
              (Combined []) 0) as (_ & Homega & _).
  destruct (flow_attribute_priority Demo.integrating new_plotter Demo.volume
              (Combined []) 0) as (_ & _ & _ & _ & Hup).
  assert (Ho : In "omega"%string (array_names Demo.turbulent)) by (cbn; auto 6).
  assert (Hk : In "k"%string (array_names Demo.turbulent)) by (cbn; auto 6).
  split; [exact Ho|]. split; [exact Hk|]. split; [exact (Homega Ho)|].
  split; [reflexivity|]. exact (Hup eq_refl).
Defined.

(** With the failing integrator the demo flow-analysis cell holds nine
    calls, none of them streamlines, and the legend is titled Velocity. *)
Lemma streamline_failure_swallowed_demo :
  Demo.failing Demo.volume (seed_points (center Demo.volume)) "U" 100%Z "forward"
    = Raise (ValueError "no streamlines") /\
  exists p,
    setup_flow_analysis Demo.failing new_plotter Demo.volume (Combined []) 90 = Ok p /\
    List.length (cell (canvas p) Cell11) = 9%nat /\
    scalar_bar_titles (cell (canvas p) Cell11) = ["Velocity"%string].
Proof.
  split; [reflexivity|].
  destruct (streamline_failure_swallowed Demo.failing new_plotter Demo.volume
              (Combined []) 90 _ eq_refl)
    as (scalars & cmap & title & Hattr & Hrun & _).
  eexists. split; [exact Hrun|].
  injection Hattr as <- <- <-. split; reflexivity.
Defined.

(** On the demo directory the run prints its ten lines. *)
Lemma progress_report_demo :
  Demo.pv_read volume_file = Ok Demo.volume /\
  exists st,
    create_animation Demo.walk Demo.pv_read Demo.failing = Ok st /\
    List.length (st_stdout st) = 10%nat /\
    last (st_stdout st) ""%string = "Progress: 100%"%string.
Proof.
  split; [reflexivity|].
  destruct (progress_report Demo.walk Demo.pv_read Demo.failing Demo.volume eq_refl)
    as (st & Hrun & _ & Hout & _).
  exists st. split; [exact Hrun|]. rewrite Hout. split; reflexivity.
Defined.

(** ** The checkpoint divisor *)

Section DivisorClaims.

Variable walk : list (string * list string).
Variable pv_read : string -> result DataSet.
Variable streamlines_from_source : Integrator.

Local Open Scope Z_scope.

Lemma range_pos (n : Z) :
  0 < n -> Py.range n = 0 :: map Z.of_nat (seq 1 (Z.to_nat n - 1)).
Proof.
  intros H. unfold Py.range.
  destruct (Z.to_nat n) as [|k] eqn:E; [lia|].
  replace (S k - 1)%nat with k by lia. reflexivity.
Qed.

(** With between one and nine frames the run dies at the checkpoint of
    its first frame. *)
Lemma create_animation_with_small (fps duration : Z) (volume : DataSet) :
  pv_read volume_file = Ok volume ->
  0 < fps * duration < 10 ->
  create_animation_with walk pv_read streamlines_from_source fps duration =
  Raise ZeroDivisionError.
Proof.
  intros Hread Htotal.
  unfold create_animation_with. rewrite load_data_spec, Hread. cbn [bind].
  unfold Py.linspace.
  destruct (Z.ltb_spec (fps * duration) 0) as [Hn|_]; [lia|]. cbn [bind].
  rewrite (range_pos (fps * duration)) by lia. cbn [map].
  unfold Py.enumerate. cbn [List.length].
  rewrite (range_pos (Z.of_nat (S _))) by lia.
  cbn [combine Py.for_each].
  rewrite frame_body_spec by (cbn; discriminate).
  destruct (progress_small (fps * duration) 0 ltac:(lia)) as [_ ->].
  reflexivity.
Qed.

(** C7.  At every checkpoint that is reached (frame index i of a run of
    total_frames frames) the divisor is total_frames // 10.  If
    total_frames < 10 it is 0 and the checkpoint raises ZeroDivisionError,
    which nothing catches: the run ends with that exception.  If
    total_frames >= 10 the divisor is positive, the modulo returns and so
    does the checkpoint, and the run completes.  The program's own
    constants give 200. *)
Theorem checkpoint_divisor (total_frames i : Z) :
  0 <= i < total_frames ->
  (total_frames < 10 ->
     Py.floordiv total_frames 10 = Ok 0 /\
     Py.mod_ (i + 1) 0 = Raise ZeroDivisionError /\
     progress total_frames i = Raise ZeroDivisionError /\
     forall fps duration volume,
       fps * duration = total_frames ->
       pv_read volume_file = Ok volume ->
       create_animation_with walk pv_read streamlines_from_source fps duration =
       Raise ZeroDivisionError) /\
  (10 <= total_frames ->
     (exists tenth message,
         Py.floordiv total_frames 10 = Ok tenth /\ 0 < tenth /\
         Py.mod_ (i + 1) tenth = Ok ((i + 1) mod tenth) /\
         progress total_frames i = Ok message) /\
     forall fps duration volume,
       fps * duration = total_frames ->
       pv_read volume_file = Ok volume ->
       exists st,
         create_animation_with walk pv_read streamlines_from_source fps duration =
         Ok st) /\
  10 <= 20 * 10.
Proof.
  intros Hi. split; [|split; [|lia]].
  - intros Hsmall.
    destruct (progress_small total_frames i ltac:(lia)) as [Hd Hp].
    repeat split; try assumption.
    intros fps duration volume <- Hread.
    apply (create_animation_with_small fps duration volume Hread). lia.
  - intros Hlarge. split; [now apply progress_large|].
    intros fps duration volume <- Hread.
    destruct (create_animation_with_spec streamlines_from_source walk pv_read
                fps duration volume Hread Hlarge) as (st & _ & Hrun & _).
    now exists st.
Qed.

End DivisorClaims.

(** With fps = 3 and duration = 3 (nine frames) the divisor is 0 and the demo
    run ends in ZeroDivisionError; with the constants 20 and 10 the
    checkpoint of the first frame returns. *)
Lemma checkpoint_divisor_demo :
  (0 <= 0 < 9)%Z /\ (9 < 10)%Z /\
  Py.floordiv 9 10 = Ok 0%Z /\
  create_animation_with Demo.walk Demo.pv_read Demo.failing 3 3 = Raise ZeroDivisionError /\
  (0 <= 0 < 200)%Z /\ (10 <= 200)%Z /\
  exists message, progress 200 0 = Ok message.
Proof.
  destruct (checkpoint_divisor Demo.walk Demo.pv_read Demo.failing 9 0 ltac:(lia))
    as (Hsmall & _ & _).
  destruct (Hsmall ltac:(lia)) as (Hd & _ & _ & Hrun).
  destruct (checkpoint_divisor Demo.walk Demo.pv_read Demo.failing 200 0 ltac:(lia))
    as (_ & Hlarge & _).
  destruct (Hlarge ltac:(lia)) as ((tenth & message & _ & _ & _ & Hp) & _).
  split; [lia|]. split; [lia|]. split; [exact Hd|].
  split; [exact (Hrun 3%Z 3%Z Demo.volume eq_refl eq_refl)|].
  split; [lia|]. split; [lia|].
  now exists message.
Defined.

(** ** What varies from frame to frame, and what the geometry cell sees *)

Section InvarianceClaims.

Variable walk : list (string * list string).
Variable pv_read : string -> result DataSet.
Variable streamlines_from_source : Integrator.

Local Open Scope Q_scope.

Lemma flow_cell_without_azimuth (volume_mesh : DataSet) (bike_surface : Surface)
    (a1 a2 : Q) :
  without_azimuth
    (drawn (setup_flow_analysis streamlines_from_source new_plotter
              volume_mesh bike_surface a1) Cell11) =
  without_azimuth
    (drawn (setup_flow_analysis streamlines_from_source new_plotter
              volume_mesh bike_surface a2) Cell11).
Proof.
  rewrite !flow_cell. cbv zeta.
  destruct (flow_attribute volume_mesh) as [[scalars cmap] field_name].
  rewrite !without_azimuth_app. reflexivity.
Qed.

Lemma flow_cell_slice_planes (volume_mesh : DataSet) (bike_surface : Surface)
    (angle : Q) :
  slice_planes
    (drawn (setup_flow_analysis streamlines_from_source new_plotter
              volume_mesh bike_surface angle) Cell11) =
  let center := center volume_mesh in
  [(mkVec3 (x0 center + 2.0) (x1 center) (x2 center), mkVec3 1 0 0)].
Proof.
  rewrite flow_cell. cbv zeta.
  destruct (flow_attribute volume_mesh) as [[scalars cmap] field_name].
  rewrite !slice_planes_app.
  destruct (streamlines_from_source _ _ _ _ _); reflexivity.
Qed.


(** C10.  The geometry cell of a frame holds the same seven calls whatever
    the volumetric field and whatever the streamline integrator does: they
    are built from the combined surface and the frame angle alone.  Two
    runs over the same directory whose readers differ only on the volume
    file commit the same geometry cells, frame by frame. *)
Theorem geometry_cell_independent
    (pv_read' : string -> result DataSet)
    (streamlines_from_source' : Integrator)
    (volume volume' : DataSet) :
  plain_names walk = true ->
  (forall path, path <> volume_file -> pv_read path = pv_read' path) ->
  pv_read volume_file = Ok volume ->
  pv_read' volume_file = Ok volume' ->
  (forall bike_surface angle,
      cell (composed_canvas streamlines_from_source volume bike_surface angle) Cell10 =
        [add_text "Motorbike Geometry" "upper_left" 12 "black";
         add_mesh (GSurface bike_surface) (Solid "silver" 0.9 "black" 0.4);
         set_background "white";
         view_isometric;
         camera_azimuth angle;
         camera_elevation 25;
         camera_zoom 1.3] /\
      cell (composed_canvas streamlines_from_source volume bike_surface angle) Cell10 =
      cell (composed_canvas streamlines_from_source' volume' bike_surface angle) Cell10) /\
  exists st st',
    create_animation walk pv_read streamlines_from_source = Ok st /\
    create_animation walk pv_read' streamlines_from_source' = Ok st' /\
    st_bike_surface st = st_bike_surface st' /\
    map (fun c => cell c Cell10) (frames (st_plotter st)) =
    map (fun c => cell c Cell10) (frames (st_plotter st')).
Proof.
  intros Hplain Hsame Hread Hread'.
  split.
  { intros bike_surface angle. unfold composed_canvas. cbn [cell cell10].
    rewrite mesh_cell. split; reflexivity. }
  destruct (create_animation_with_spec streamlines_from_source walk pv_read
              20 10 volume Hread ltac:(lia))
    as (st & angles & Hrun & Hl & _ & Hs & Hf & _).
  destruct (create_animation_with_spec streamlines_from_source' walk pv_read'
              20 10 volume' Hread' ltac:(lia))
    as (st' & angles' & Hrun' & Hl' & _ & Hs' & Hf' & _).
  rewrite Hl in Hl'. injection Hl' as <-.
  assert (Hparts : load_motorbike_parts walk pv_read = load_motorbike_parts walk pv_read').
  { rewrite !load_motorbike_parts_spec.
    apply successes_ext_in. intros path Hin. apply Hsame.
    intros ->. now apply (volume_file_not_discovered walk Hplain). }
  exists st, st'. split; [exact Hrun|]. split; [exact Hrun'|].
  split; [now rewrite Hs, Hs', Hparts|].
  rewrite Hf, Hf', Hparts, !map_map. reflexivity.
Qed.

End InvarianceClaims.



Lemma demo_readers_agree (path : string) :
  path <> volume_file -> Demo.pv_read path = Demo.pv_read_bare path.
Proof.
  intros H. unfold Demo.pv_read_bare.
  destruct (String.eqb_spec path "motorBike-VTK/motorBike_500.vtk") as [E|_];
    [|reflexivity].
  exfalso. apply H. exact E.
Qed.

(** Two demo runs, one over a volume file without any attribute and with an
    integrator that succeeds: the geometry cells agree frame by frame. *)
Lemma geometry_cell_independent_demo :
  plain_names Demo.walk = true /\
  Demo.pv_read volume_file = Ok Demo.volume /\
  array_names Demo.volume = ["U"; "p"]%string /\
  (exists bare, Demo.pv_read_bare volume_file = Ok bare /\ array_names bare = []) /\
  exists st st',
    create_animation Demo.walk Demo.pv_read Demo.failing = Ok st /\
    create_animation Demo.walk Demo.pv_read_bare Demo.integrating = Ok st' /\
    map (fun c => cell c Cell10) (frames (st_plotter st)) =
    map (fun c => cell c Cell10) (frames (st_plotter st')).
Proof.
  split; [reflexivity|]. split; [reflexivity|]. split; [reflexivity|].
  split; [eexists; split; reflexivity|].
  destruct (geometry_cell_independent Demo.walk Demo.pv_read Demo.failing
              Demo.pv_read_bare Demo.integrating Demo.volume _
              eq_refl demo_readers_agree eq_refl eq_refl)
    as (_ & st & st' & Hrun & Hrun' & _ & Hcells).
  exists st, st'. split; [exact Hrun|]. split; [exact Hrun' | exact Hcells].
Defined.

(** ** The exploded view *)

Section ExplodedClaims.

Variable linalg_norm : Vec3 -> Q.

Lemma gt_zero_nonzero (a : Q) : Np.gt a 0 = true -> Qeq_bool a 0 = false.
Proof.
  unfold Np.gt. intros H. apply negb_true_iff in H.
  destruct (Qeq_bool a 0) eqn:E; [|reflexivity].
  apply Qeq_bool_iff in E.
  assert (Hle : Qle_bool a 0 = true) by (apply Qle_bool_iff; rewrite E; apply Qle_refl).
  congruence.
Qed.

Lemma zero_not_gt (a : Q) : a == 0 -> Np.gt a 0 = false.
Proof.
  intros E. unfold Np.gt. apply negb_false_iff, Qle_bool_iff.
  rewrite E. apply Qle_refl.
Qed.

Lemma offset_direction_total (part_center : Vec3) (global_center : option Vec3) :
  exists d, offset_direction linalg_norm part_center global_center = Ok d.
Proof.
  unfold offset_direction. destruct global_center as [g|]; [|now eexists].
  destruct (Np.gt (linalg_norm (Np.sub part_center g)) 0) eqn:E; [|now eexists].
  unfold Np.divide. rewrite (gt_zero_nonzero _ E). now eexists.
Qed.

Lemma explode_loop (global_center : option Vec3) (items : list (Z * DataSet)) :
  forall calls,
  exists drawn_,
    Py.for_each items (explode_body linalg_norm global_center) calls =
      Ok (calls ++ drawn_) /\
    translations drawn_ =
      map (fun ip => (snd ip,
                      Np.scale (direction linalg_norm global_center (snd ip))
                               explosion_factor)) items.
Proof.
  induction items as [|[i part] items IH]; intros calls.
  - exists []. cbn. now rewrite app_nil_r.
  - cbn [Py.for_each explode_body].
    destruct (offset_direction_total (center part) global_center) as [d Hd].
    rewrite Hd. cbn [bind].
    match goal with |- context [Py.for_each items _ ?c] =>
      destruct (IH c) as (rest & Hrun & Htr) end.
    eexists. rewrite Hrun, <- app_assoc. split; [reflexivity|].
    cbn [app translations flat_map map snd].
    fold (translations rest). rewrite Htr.
    f_equal. unfold direction. rewrite Hd. reflexivity.
Qed.

Lemma veq_sub_zero (a b : Vec3) : Np.veq a b -> Np.veq (Np.sub a b) Np.zero.
Proof.
  intros (H0 & H1 & H2). unfold Np.veq, Np.sub, Np.zero.
  cbn [x0 x1 x2]. rewrite H0, H1, H2. repeat split; ring.
Qed.

(** C9.  Computing a part's offset direction always returns: the division
    by the norm is reached only under the test [norm > 0], where the norm
    is not zero, and otherwise the direction is the zero vector.  So
    [exploded_view] returns for every list of parts and translates each
    part by its direction times 0.3.  A part whose centre coincides with
    the global centre gets the zero direction and a zero translation.  For
    a non-empty list the global centre itself is a proper mean (its
    divisor is the number of parts). *)
Theorem exploded_offset_total (bike_parts : list DataSet) :
  (forall v, Np.veq v Np.zero -> linalg_norm v == 0) ->
  let global_center := Np.mean (map center bike_parts) in
  (forall part_center g,
      exists d, offset_direction linalg_norm part_center g = Ok d) /\
  (forall part_center g,
      let offset := Np.sub part_center g in
      if Np.gt (linalg_norm offset) 0
      then ~ linalg_norm offset == 0 /\
           offset_direction linalg_norm part_center (Some g) =
           Ok (mkVec3 (x0 offset / linalg_norm offset)
                      (x1 offset / linalg_norm offset)
                      (x2 offset / linalg_norm offset))
      else offset_direction linalg_norm part_center (Some g) = Ok Np.zero) /\
  (exists calls,
      exploded_view linalg_norm bike_parts = Ok calls /\
      translations calls =
        map (fun part =>
               (part, Np.scale (direction linalg_norm global_center part)
                               explosion_factor)) bike_parts) /\
  (forall part g,
      In part bike_parts ->
      global_center = Some g ->
      Np.veq (center part) g ->
      offset_direction linalg_norm (center part) global_center = Ok Np.zero /\
      direction linalg_norm global_center part = Np.zero /\
      Np.veq (Np.scale (direction linalg_norm global_center part) explosion_factor)
             Np.zero) /\
  (bike_parts <> [] -> exists g, global_center = Some g).
Proof.
  intros Hnorm global_center.
  split; [intros; apply offset_direction_total|].
  split.
  { intros part_center g. cbv zeta. unfold offset_direction.
    destruct (Np.gt (linalg_norm (Np.sub part_center g)) 0) eqn:E; [|reflexivity].
    pose proof (gt_zero_nonzero _ E) as Hne. split.
    - intros Hz. apply Qeq_bool_iff in Hz. congruence.
    - unfold Np.divide. rewrite Hne. reflexivity. }
  split.
  { unfold exploded_view. fold global_center.
    destruct (explode_loop global_center (Py.enumerate bike_parts) [])
      as (calls & Hrun & Htr).
    rewrite Hrun. cbn [bind app]. eexists. split; [reflexivity|].
    unfold translations. rewrite flat_map_app. fold (translations calls).
    rewrite Htr. cbn [flat_map]. rewrite app_nil_r.
    rewrite <- (enumerate_snd bike_parts) at 2. now rewrite map_map. }
  split.
  { intros part g _ Hg Heq.
    assert (Hd : offset_direction linalg_norm (center part) global_center = Ok Np.zero).
    { rewrite Hg. unfold offset_direction.
      rewrite (zero_not_gt _ (Hnorm _ (veq_sub_zero _ _ Heq))). reflexivity. }
    split; [exact Hd|].
    unfold direction. rewrite Hd. split; [reflexivity|].
    unfold Np.veq, Np.scale, Np.zero. cbn [x0 x1 x2]. repeat split; ring. }
  intros Hne. subst global_center.
  destruct bike_parts as [|part rest]; [congruence|].
  cbn [map Np.mean]. now eexists.
Qed.

End ExplodedClaims.

Lemma norm_floor_zero (v : Vec3) : Np.veq v Np.zero -> norm_floor v == 0.
Proof.
  intros (H0 & H1 & H2). unfold Np.zero in *. cbn [x0 x1 x2] in *.
  unfold norm_floor.
  assert (E : x0 v * x0 v + x1 v * x1 v + x2 v * x2 v == 0)
    by (rewrite H0, H1, H2; ring).
  rewrite (Qred_complete _ _ E). reflexivity.
Qed.

(** Three demo parts on a line: the middle one sits at the global centre
    (3, 0, 4) and is not moved; the first is 5 away and is moved along
    (-3/5, 0, -4/5). *)
Lemma exploded_offset_total_demo :
  (forall v, Np.veq v Np.zero -> norm_floor v == 0) /\
  (exists g, Np.mean (map center Demo.parts) = Some g /\
             Np.veq (mkVec3 3 0 4) g /\
             direction norm_floor (Some g) (mkDataSet "b" (mkVec3 3 0 4) []) = Np.zero /\
             Np.veq (direction norm_floor (Some g) (mkDataSet "a" (mkVec3 0 0 0) []))
                    (mkVec3 (-3 # 5) 0 (-4 # 5))) /\
  exists calls,
    exploded_view norm_floor Demo.parts = Ok calls /\
    List.length (translations calls) = 3%nat.
Proof.
  split; [exact norm_floor_zero|].
  destruct (exploded_offset_total norm_floor Demo.parts norm_floor_zero)
    as (_ & _ & (calls & Hrun & Htr) & Hzero & Hmean).
  destruct Hmean as [g Hg]; [discriminate|].
  split.
  - exists g. split; [exact Hg|].
    assert (Hb : In (mkDataSet "b" (mkVec3 3 0 4) []) Demo.parts) by (cbn; auto).
    injection Hg as <-.
    assert (Heq : Np.veq (mkVec3 3 0 4)
                    (mkVec3 ((0 + 0 + 3 + 6) / inject_Z 3) ((0 + 0 + 0 + 0) / inject_Z 3)
                            ((0 + 0 + 4 + 8) / inject_Z 3)))
      by (repeat split; reflexivity).
    split; [exact Heq|].
    split; [exact (proj1 (proj2 (Hzero _ _ Hb eq_refl Heq)))|].
    repeat split; reflexivity.
  - exists calls. split; [exact Hrun|]. rewrite Htr. reflexivity.
Defined.

(** * Further properties *)

(** ** The frame driver for any frame count *)

Section DriverExtras.

Variable walk : list (string * list string).
Variable pv_read : string -> result DataSet.
Variable streamlines_from_source : Integrator.

Local Open Scope Z_scope.

Lemma progress_at (total_frames i : Z) :
  10 <= total_frames ->
  progress total_frames i =
  Ok (if ((i + 1) mod (total_frames / 10) =? 0)%Z
      then Some ("Progress: " ++
                 Py.format_0f (inject_Z (i + 1) / inject_Z total_frames * 100)%Q ++
                 "%")%string
      else None).
Proof.
  intros H.
  assert (Hd : 0 < total_frames / 10) by (apply Z.div_str_pos; lia).
  unfold progress, Py.floordiv, Py.mod_, Py.truediv. cbn [Z.eqb bind].
  destruct (Z.eqb_spec (total_frames / 10) 0) as [E|_]; [lia|]. cbn [bind].
  destruct (Z.eqb_spec total_frames 0) as [E|_]; [lia|].
  destruct ((i + 1) mod (total_frames / 10) =? 0)%Z; reflexivity.
Qed.

Lemma div_succ (k d : Z) :
  0 < d -> 0 <= k ->
  (k + 1) / d = k / d + (if ((k + 1) mod d =? 0)%Z then 1 else 0).
Proof.
  intros Hd Hk.
  pose proof (Z.div_mod k d ltac:(lia)) as Hdm.
  pose proof (Z.mod_pos_bound k d Hd) as Hr.
  destruct (Z.eq_dec (k mod d + 1) d) as [E|E].
  - assert (Hq : (k + 1) / d = k / d + 1)
      by (symmetry; apply (Z.div_unique (k + 1) d (k / d + 1) 0); lia).
    assert (Hm : (k + 1) mod d = 0)
      by (symmetry; apply (Z.mod_unique (k + 1) d (k / d + 1) 0); lia).
    rewrite Hq, Hm. reflexivity.
  - assert (Hq : (k + 1) / d = k / d)
      by (symmetry; apply (Z.div_unique (k + 1) d (k / d) (k mod d + 1)); lia).
    assert (Hm : (k + 1) mod d = k mod d + 1)
      by (symmetry; apply (Z.mod_unique (k + 1) d (k / d) (k mod d + 1)); lia).
    rewrite Hq, Hm.
    destruct (Z.eqb_spec (k mod d + 1) 0); lia.
Qed.

Lemma range_succ (n : nat) :
  Py.range (Z.of_nat (S n)) = Py.range (Z.of_nat n) ++ [Z.of_nat n].
Proof.
  unfold Py.range. rewrite !Nat2Z.id, seq_S, map_app. reflexivity.
Qed.

Lemma printed_app (total_frames : Z) (l1 l2 : list Z) :
  printed total_frames (l1 ++ l2) = printed total_frames l1 ++ printed total_frames l2.
Proof. apply flat_map_app. Qed.

(** Up to frame n the loop has printed n // (total_frames // 10) lines. *)
Lemma printed_count (total_frames : Z) (n : nat) :
  10 <= total_frames ->
  Z.of_nat (List.length (printed total_frames (Py.range (Z.of_nat n)))) =
  Z.of_nat n / (total_frames / 10).
Proof.
  intros H.
  assert (Hd : 0 < total_frames / 10) by (apply Z.div_str_pos; lia).
  induction n as [|n IH].
  - reflexivity.
  - rewrite range_succ, printed_app, length_app, Nat2Z.inj_add, IH.
    rewrite Nat2Z.inj_succ. unfold Z.succ.
    rewrite (div_succ (Z.of_nat n) _ Hd) by lia.
    f_equal. cbn [printed flat_map]. rewrite (progress_at _ _ H).
    destruct ((Z.of_nat n + 1) mod (total_frames / 10) =? 0)%Z; reflexivity.
Qed.

Lemma round_half_even_Z (q : Q) (z : Z) :
  (q == inject_Z z)%Q -> Py.round_half_even q = z.
Proof.
  intros E. unfold Py.round_half_even.
  assert (Hf : Qfloor q = z) by (rewrite E; apply Qfloor_Z).
  rewrite Hf.
  assert (Hc : ((q - inject_Z z) ?= (1 # 2))%Q = Lt).
  { rewrite E. assert (H0 : (inject_Z z - inject_Z z == 0)%Q) by ring.
    rewrite H0. reflexivity. }
  rewrite Hc. reflexivity.
Qed.

Lemma create_animation_with_closed (fps duration : Z) (st : Locals) :
  create_animation_with walk pv_read streamlines_from_source fps duration = Ok st ->
  movie (st_plotter st) = None.
Proof.
  unfold create_animation_with.
  destruct (load_data walk pv_read) as [[v b]|]; [|discriminate]. cbn [bind].
  destruct (Py.linspace 0 360 (fps * duration)); [|discriminate]. cbn [bind].
  destruct (Py.for_each _ _ _); [|discriminate]. cbn [bind].
  intros [= <-]. reflexivity.
Qed.

(** X1.  For any constants with fps * duration >= 10 and a readable volume
    file the run returns, commits exactly fps * duration frames, leaves the
    movie closed and prints total // (total // 10) progress lines, which is
    never fewer than ten. *)
Theorem run_frames_and_lines (fps duration : Z) (volume : DataSet) :
  pv_read volume_file = Ok volume ->
  10 <= fps * duration ->
  exists st,
    create_animation_with walk pv_read streamlines_from_source fps duration = Ok st /\
    Z.of_nat (List.length (frames (st_plotter st))) = fps * duration /\
    movie (st_plotter st) = None /\
    Z.of_nat (List.length (st_stdout st)) = (fps * duration) / ((fps * duration) / 10) /\
    10 <= Z.of_nat (List.length (st_stdout st)).
Proof.
  intros Hread Htotal.
  destruct (create_animation_with_spec streamlines_from_source walk pv_read
              fps duration volume Hread Htotal)
    as (st & angles & Hrun & Hl & _ & _ & Hf & Ho).
  destruct (linspace_spec 0 360 (fps * duration) ltac:(lia)) as (angles' & Hl' & Hlen & _).
  rewrite Hl in Hl'. injection Hl' as <-.
  assert (Hcount : Z.of_nat (List.length (st_stdout st)) =
                   (fps * duration) / ((fps * duration) / 10)).
  { rewrite Ho, printed_count, Hlen by exact Htotal. now rewrite Z2Nat.id by lia. }
  exists st. split; [exact Hrun|].
  split; [rewrite Hf, length_map, Hlen; lia|].
  split; [exact (create_animation_with_closed _ _ _ Hrun)|].
  split; [exact Hcount|].
  rewrite Hcount.
  assert (Hd : 0 < (fps * duration) / 10) by (apply Z.div_str_pos; lia).
  apply Z.div_le_lower_bound; [exact Hd|].
  rewrite Z.mul_comm. apply Z.mul_div_le. lia.
Qed.

(** X2.  The last frame of a run of total_frames >= 10 frames prints a
    line exactly when total_frames is a multiple of total_frames // 10, and
    that line is Progress: 100%; otherwise the last frame prints nothing. *)
Theorem final_progress_line (total_frames : Z) :
  10 <= total_frames ->
  progress total_frames (total_frames - 1) =
  Ok (if (total_frames mod (total_frames / 10) =? 0)%Z
      then Some "Progress: 100%"%string
      else None).
Proof.
  intros H. rewrite (progress_at _ _ H).
  replace (total_frames - 1 + 1) with total_frames by lia.
  destruct (total_frames mod (total_frames / 10) =? 0)%Z; [|reflexivity].
  unfold Py.format_0f.
  rewrite (round_half_even_Z _ 100); [reflexivity|].
  assert (Hn : ~ (inject_Z total_frames == 0)%Q).
  { unfold Qeq. cbn. lia. }
  change (inject_Z 100) with 100%Q. field. exact Hn.
Qed.

(** X3.  When total_frames is a multiple of ten, 10 * m with m >= 1, the
    checkpoint fires at the frames k * m (k = 1..10) and only there, the
    k-th line shows 10 * k percent, and the run prints ten lines. *)
Theorem progress_every_tenth (m i : Z) :
  1 <= m ->
  0 <= i < 10 * m ->
  progress (10 * m) i =
  Ok (if ((i + 1) mod m =? 0)%Z
      then Some ("Progress: " ++ Py.str (10 * ((i + 1) / m)) ++ "%")%string
      else None) /\
  (10 * m) / ((10 * m) / 10) = 10.
Proof.
  intros Hm Hi.
  assert (Hd : (10 * m) / 10 = m) by (rewrite Z.mul_comm; apply Z.div_mul; lia).
  split; [|rewrite Hd; apply Z.div_mul; lia].
  rewrite progress_at by lia. rewrite Hd.
  destruct (Z.eqb_spec ((i + 1) mod m) 0) as [E|_]; [|reflexivity].
  unfold Py.format_0f.
  rewrite (round_half_even_Z _ (10 * ((i + 1) / m))); [reflexivity|].
  pose proof (Z.div_mod (i + 1) m ltac:(lia)) as Hdm. rewrite E, Z.add_0_r in Hdm.
  set (k := (i + 1) / m) in *. rewrite Hdm.
  rewrite !inject_Z_mult. change (inject_Z 10) with 10%Q.
  assert (Hn : ~ (inject_Z m == 0)%Q) by (unfold Qeq; cbn; lia).
  field. exact Hn.
Qed.

(** X4.  With a readable volume file and a frame count of zero the run
    returns without a frame and without output; with a negative frame count
    it raises ValueError (from linspace) before any frame. *)
Theorem run_without_frames (fps duration : Z) (volume : DataSet) :
  pv_read volume_file = Ok volume ->
  (fps * duration = 0 ->
   exists st,
     create_animation_with walk pv_read streamlines_from_source fps duration = Ok st /\
     frames (st_plotter st) = [] /\ st_stdout st = [] /\
     movie (st_plotter st) = None) /\
  (fps * duration < 0 ->
   exists msg,
     create_animation_with walk pv_read streamlines_from_source fps duration =
     Raise (ValueError msg)).
Proof.
  intros Hread. unfold create_animation_with.
  rewrite load_data_spec, Hread. cbn [bind]. split.
  - intros ->. cbn. eexists. repeat split; reflexivity.
  - intros Hneg. unfold Py.linspace.
    destruct (Z.ltb_spec (fps * duration) 0) as [_|Hge]; [|lia].
    cbn [bind]. now eexists.
Qed.

(** X5.  A volume file that cannot be read ends [load_data] and the whole
    run with the reader's exception, whatever the constants and whatever
    the part files do: that read is outside every try. *)
Theorem volume_failure_propagates (e : Exn) :
  pv_read volume_file = Raise e ->
  load_data walk pv_read = Raise e /\
  forall fps duration,
    create_animation_with walk pv_read streamlines_from_source fps duration = Raise e.
Proof.
  intros Hread. split.
  - rewrite load_data_spec, Hread. reflexivity.
  - intros fps duration. unfold create_animation_with.
    rewrite load_data_spec, Hread. reflexivity.
Qed.

(** X6.  What a frame commits does not depend on what the canvas held
    before: two plotters with an open movie commit the same canvas for the
    same data and angle, the committed canvas is appended after the frames
    already written, and rendering the same angle twice appends two equal
    canvases. *)
Theorem frame_isolation (p1 p2 : Plotter) (volume_mesh : DataSet)
    (bike_surface : Surface) (angle : Q) :
  movie p1 <> None ->
  movie p2 <> None ->
  exists c q1 q2 q1',
    render_frame streamlines_from_source p1 volume_mesh bike_surface angle = Ok q1 /\
    render_frame streamlines_from_source p2 volume_mesh bike_surface angle = Ok q2 /\
    canvas q1 = c /\ canvas q2 = c /\
    frames q1 = frames p1 ++ [c] /\ frames q2 = frames p2 ++ [c] /\
    render_frame streamlines_from_source q1 volume_mesh bike_surface angle = Ok q1' /\
    frames q1' = frames p1 ++ [c; c].
Proof.
  intros H1 H2.
  rewrite (render_frame_spec _ _ _ _ _ H1), (render_frame_spec _ _ _ _ _ H2).
  cbv zeta. eexists. eexists. eexists. eexists.
  split; [reflexivity|]. split; [reflexivity|].
  split; [reflexivity|]. split; [reflexivity|].
  split; [reflexivity|]. split; [reflexivity|].
  rewrite render_frame_spec by exact H1. cbv zeta.
  split; [reflexivity|]. cbn [frames]. now rewrite <- app_assoc.
Qed.

End DriverExtras.

(** ** The loader: what it reads and what it ignores *)

Section LoaderExtras.

Variable pv_read : string -> result DataSet.

Lemma discovered_app (w1 w2 : list (string * list string)) :
  discovered (w1 ++ w2) = discovered w1 ++ discovered w2.
Proof. apply flat_map_app. Qed.

(** X7.  The loader consults the reader on the discovered paths only: two
    readers that agree on them load the same parts, so neither the volume
    file nor any file outside the naming convention can change the
    surface. *)
Theorem loader_reads_discovered_only
    (walk : list (string * list string)) (pv_read' : string -> result DataSet) :
  (forall path, In path (discovered walk) -> pv_read path = pv_read' path) ->
  load_motorbike_parts walk pv_read = load_motorbike_parts walk pv_read' /\
  forall v v' s s',
    load_data walk pv_read = Ok (v, s) ->
    load_data walk pv_read' = Ok (v', s') ->
    s = s'.
Proof.
  intros H.
  assert (Hparts : load_motorbike_parts walk pv_read = load_motorbike_parts walk pv_read')
    by (rewrite !load_motorbike_parts_spec; now apply successes_ext_in).
  split; [exact Hparts|].
  intros v v' s s'. rewrite !load_data_spec.
  destruct (pv_read volume_file); [|discriminate].
  destruct (pv_read' volume_file); [|discriminate].
  intros [= _ <-] [= _ <-]. now rewrite Hparts.
Qed.

(** X8.  A file whose name fails the convention is skipped wherever it
    lies: dropping it from any directory of the walk leaves the loaded
    parts unchanged.  This holds for every name without the suffix and for
    the name motorBike_500.vtk in any directory, not only at the top. *)
Theorem loader_skips_other_names
    (w1 w2 : list (string * list string)) (root : string)
    (before after : list string) (fname : string) :
  is_part_name fname = false ->
  load_motorbike_parts (w1 ++ (root, before ++ fname :: after) :: w2) pv_read =
  load_motorbike_parts (w1 ++ (root, before ++ after) :: w2) pv_read /\
  is_part_name "motorBike_500.vtk" = false.
Proof.
  intros Hname. split; [|reflexivity].
  rewrite !load_motorbike_parts_spec. f_equal.
  rewrite !discovered_app. f_equal.
  unfold discovered. cbn [flat_map fst snd]. f_equal.
  rewrite !filter_app. cbn [filter]. rewrite Hname. reflexivity.
Qed.

End LoaderExtras.

(** ** The composers: camera order and the reach of the integrator *)

Section ComposerExtras.

Variables (streamlines_from_source streamlines_from_source' : Integrator).
Variables (volume_mesh : DataSet) (bike_surface : Surface) (angle : Q).

Local Open Scope Q_scope.

Lemma flow_cell_without_streamlines (sfs : Integrator) :
  filter (fun c => negb (is_streamlines c))
    (drawn (setup_flow_analysis sfs new_plotter volume_mesh bike_surface angle) Cell11) =
  let c := center volume_mesh in
  let '(scalars, cmap, field_name) := flow_attribute volume_mesh in
  [add_text "Flow Analysis & Wake" "upper_left" 12 "black";
   add_mesh (GSlice volume_mesh (mkVec3 (x0 c + 2.0) (x1 c) (x2 c)) (mkVec3 1 0 0))
            (ByScalars scalars cmap 0.8 None);
   add_mesh (GSurface bike_surface) (Solid "darkblue" 0.6 "navy" 0.3);
   add_scalar_bar field_name 0.85 0.05 0.3 8 7;
   set_background "lightgray";
   view_isometric;
   camera_azimuth (angle * 0.3);
   camera_elevation 15;
   camera_zoom 1.0].
Proof.
  rewrite flow_cell. cbv zeta.
  destruct (flow_attribute volume_mesh) as [[scalars cmap] field_name].
  rewrite !filter_app.
  destruct (sfs _ _ _ _ _); reflexivity.
Qed.

(** X9.  The streamline integrator reaches the flow-analysis cell only, and
    there only the one streamline mesh: for any two integrators the three
    other cells of a frame are equal, the flow-analysis cells are equal once
    streamline meshes are left out, and a frame holds one streamline mesh
    when the integrator returns and none when it raises. *)
Theorem integrator_reach :
  let c := composed_canvas streamlines_from_source volume_mesh bike_surface angle in
  let c' := composed_canvas streamlines_from_source' volume_mesh bike_surface angle in
  cell c Cell00 = cell c' Cell00 /\
  cell c Cell01 = cell c' Cell01 /\
  cell c Cell10 = cell c' Cell10 /\
  filter (fun x => negb (is_streamlines x)) (cell c Cell11) =
  filter (fun x => negb (is_streamlines x)) (cell c' Cell11) /\
  List.length (filter is_streamlines (cell c Cell11)) =
    (if is_ok (streamlines_from_source volume_mesh (seed_points (center volume_mesh))
                 "U" 100%Z "forward")
     then 1 else 0)%nat /\
  (forall id, id <> Cell11 -> filter is_streamlines (cell c id) = []).
Proof.
  cbv zeta. unfold composed_canvas. cbn [cell cell00 cell01 cell10 cell11].
  split; [reflexivity|]. split; [reflexivity|]. split; [reflexivity|].
  split; [now rewrite !flow_cell_without_streamlines|].
  split.
  - rewrite flow_cell. cbv zeta.
    destruct (flow_attribute volume_mesh) as [[scalars cmap] field_name].
    rewrite !filter_app, !length_app.
    destruct (streamlines_from_source _ _ _ _ _); reflexivity.
  - intros id Hid. destruct id; cbn [cell cell00 cell01 cell10 cell11].
    + rewrite velocity_cell. reflexivity.
    + rewrite pressure_cell. reflexivity.
    + rewrite mesh_cell. reflexivity.
    + congruence.
Qed.

(** X10.  In every cell of a frame the last four calls are the isometric
    preset followed by the azimuth, the elevation and the zoom, so the
    preset is never applied after the pose; elevation and zoom are (20, 1.2)
    for velocity and pressure, (25, 1.3) for geometry and (15, 1.0) for
    flow analysis, whatever the angle and the data. *)
Theorem camera_set_after_preset :
  let c := composed_canvas streamlines_from_source volume_mesh bike_surface angle in
  camera_calls (cell c Cell00) =
    [view_isometric; camera_azimuth (angle * 0.5); camera_elevation 20; camera_zoom 1.2] /\
  camera_calls (cell c Cell01) =
    [view_isometric; camera_azimuth (angle * 0.5); camera_elevation 20; camera_zoom 1.2] /\
  camera_calls (cell c Cell10) =
    [view_isometric; camera_azimuth angle; camera_elevation 25; camera_zoom 1.3] /\
  camera_calls (cell c Cell11) =
    [view_isometric; camera_azimuth (angle * 0.3); camera_elevation 15; camera_zoom 1.0] /\
  forall id,
    List.length (filter (fun x => match x with view_isometric => true | _ => false end)
                        (cell c id)) = 1%nat.
Proof.
  cbv zeta. unfold composed_canvas. cbn [cell cell00 cell01 cell10 cell11].
  rewrite velocity_cell, pressure_cell, mesh_cell, flow_cell. cbv zeta.
  destruct (flow_attribute volume_mesh) as [[scalars cmap] field_name].
  split; [reflexivity|]. split; [reflexivity|]. split; [reflexivity|].
  split.
  - destruct (streamlines_from_source _ _ _ _ _); reflexivity.
  - intros id. destruct id; cbn [cell cell00 cell01 cell10 cell11]; try reflexivity.
    rewrite !filter_app, !length_app.
    destruct (streamlines_from_source _ _ _ _ _); reflexivity.
Qed.

End ComposerExtras.

(** ** The viewer: colours, views and the menu *)

Section ViewerExtras.

Local Open Scope Z_scope.

Lemma part_colors_nodup : NoDup (map snd Viewer.part_colors).
Proof.
  cbn [map snd Viewer.part_colors].
  repeat (constructor; [cbn [In]; intuition discriminate|]).
  constructor.
Qed.

Lemma list_index_nth (xs : list string) (k : Z) :
  0 <= k < Z.of_nat (List.length xs) ->
  Viewer.list_index xs k = Ok (nth (Z.to_nat k) xs ""%string).
Proof.
  intros Hk. unfold Viewer.list_index.
  destruct (Z.ltb_spec k 0) as [Hn|_]; [lia|].
  destruct (Z.leb_spec 0 k) as [_|Hn]; [|lia].
  destruct (Z.ltb_spec k (Z.of_nat (List.length xs))) as [_|Hn]; [|lia].
  cbn [andb].
  destruct (nth_error xs (Z.to_nat k)) as [x|] eqn:E.
  - now rewrite (nth_error_nth _ _ _ E).
  - apply nth_error_None in E. lia.
Qed.

Lemma get_part_color_nth (index : Z) :
  Viewer.get_part_color index =
  Ok (nth (Z.to_nat (index mod 12)) (map snd Viewer.part_colors) ""%string).
Proof.
  unfold Viewer.get_part_color.
  change (Z.of_nat (List.length (map snd Viewer.part_colors))) with 12.
  unfold Py.mod_. cbn [Z.eqb bind].
  apply list_index_nth.
  change (Z.of_nat (List.length (map snd Viewer.part_colors))) with 12.
  apply Z.mod_pos_bound. lia.
Qed.

(** X11.  [get_part_color] never raises, for any integer index: it returns
    a colour of the palette, the same for index and index + 12, and two
    indices get the same colour exactly when they are congruent modulo 12
    (the twelve palette colours are distinct). *)
Theorem part_color_cycle (index : Z) :
  exists color,
    Viewer.get_part_color index = Ok color /\
    In color (map snd Viewer.part_colors) /\
    Viewer.get_part_color (index + 12) = Ok color /\
    forall j, Viewer.get_part_color j = Ok color <-> j mod 12 = index mod 12.
Proof.
  pose proof (Z.mod_pos_bound index 12 ltac:(lia)) as Hk.
  eexists. split; [apply get_part_color_nth|].
  split.
  { apply nth_In. change (List.length (map snd Viewer.part_colors)) with 12%nat. lia. }
  split.
  { rewrite get_part_color_nth.
    replace ((index + 12) mod 12) with (index mod 12); [reflexivity|].
    rewrite <- (Z.mul_1_l 12) at 2. now rewrite Z.mod_add by lia. }
  intros j. rewrite get_part_color_nth.
  pose proof (Z.mod_pos_bound j 12 ltac:(lia)) as Hj.
  split.
  - intros [= E].
    assert (Hnat : Z.to_nat (j mod 12) = Z.to_nat (index mod 12)).
    { apply (proj1 (NoDup_nth _ ""%string) part_colors_nodup);
        try (change (List.length (map snd Viewer.part_colors)) with 12%nat; lia).
      exact E. }
    lia.
  - intros ->. reflexivity.
Qed.

Variable walk : list (string * list string).
Variable pv_read : string -> result DataSet.
Variable linalg_norm : Vec3 -> Q.

Lemma detail_loop (items : list (Z * DataSet)) :
  forall calls,
    Py.for_each items Viewer.detail_body calls =
    Ok (calls ++
        map (fun ip =>
               add_part_mesh (snd ip)
                 (Solid (nth (Z.to_nat (fst ip mod 12)) (map snd Viewer.part_colors)
                             ""%string)
                        0.9 "black" 0.3)) items).
Proof.
  induction items as [|[i part] items IH]; intros calls.
  - cbn. now rewrite app_nil_r.
  - cbn [Py.for_each Viewer.detail_body]. rewrite get_part_color_nth. cbn [bind].
    rewrite IH, <- app_assoc. reflexivity.
Qed.

(** X12.  [detailed_view] returns for every directory and its calls are,
    in this order: one mesh per loaded part, in load order, part i in
    palette colour i mod 12 with opacity 0.9 and black edges, and then the
    ten scene calls of [Viewer.scene] from [set_background] to [show]; with
    no part it issues the scene alone. *)
Theorem detailed_view_parts :
  let bike_parts := load_motorbike_parts walk pv_read in
  exists calls,
    Viewer.detailed_view walk pv_read = Ok calls /\
    calls =
      map (fun ip =>
             add_part_mesh (snd ip)
               (Solid (nth (Z.to_nat (fst ip mod 12)) (map snd Viewer.part_colors)
                           ""%string)
                      0.9 "black" 0.3))
          (Py.enumerate bike_parts) ++ Viewer.scene /\
    Viewer.part_meshes calls =
      map (fun ip => (snd ip,
                      nth (Z.to_nat (fst ip mod 12)) (map snd Viewer.part_colors)
                          ""%string))
          (Py.enumerate bike_parts) /\
    map fst (Viewer.part_meshes calls) = bike_parts /\
    List.length calls = (List.length bike_parts + 10)%nat /\
    (bike_parts = [] -> calls = Viewer.scene).
Proof.
  cbv zeta. unfold Viewer.detailed_view.
  rewrite detail_loop. cbn [bind app]. eexists. split; [reflexivity|].
  split; [reflexivity|].
  assert (Hm : Viewer.part_meshes
                 (map (fun ip : Z * DataSet =>
                         add_part_mesh (snd ip)
                           (Solid (nth (Z.to_nat (fst ip mod 12))
                                       (map snd Viewer.part_colors) ""%string)
                                  0.9 "black" 0.3))
                      (Py.enumerate (load_motorbike_parts walk pv_read)) ++ Viewer.scene) =
               map (fun ip => (snd ip,
                               nth (Z.to_nat (fst ip mod 12))
                                   (map snd Viewer.part_colors) ""%string))
                   (Py.enumerate (load_motorbike_parts walk pv_read))).
  { unfold Viewer.part_meshes. rewrite flat_map_app.
    change (flat_map _ Viewer.scene) with (@nil (DataSet * string)).
    rewrite app_nil_r.
    induction (Py.enumerate (load_motorbike_parts walk pv_read)) as [|ip l IH];
      [reflexivity|].
    cbn [map flat_map app]. now rewrite IH. }
  split; [exact Hm|].
  split; [rewrite Hm, map_map; cbn [fst]; apply enumerate_snd|].
  split.
  - rewrite length_app, length_map.
    rewrite <- (enumerate_snd (load_motorbike_parts walk pv_read)) at 2.
    rewrite length_map. reflexivity.
  - intros ->. reflexivity.
Qed.

Lemma explode_loop_calls (global_center : option Vec3) (items : list (Z * DataSet)) :
  forall calls,
    Py.for_each items (explode_body linalg_norm global_center) calls =
    Ok (calls ++
        map (fun ip =>
               add_mesh
                 (GTranslated (snd ip)
                    (Np.scale (direction linalg_norm global_center (snd ip))
                              explosion_factor))
                 (Solid (nth (Z.to_nat (fst ip mod 8)) colors ""%string)
                        0.8 "black" 0.2)) items).
Proof.
  induction items as [|[i part] items IH]; intros calls.
  - cbn. now rewrite app_nil_r.
  - cbn [Py.for_each explode_body].
    destruct (offset_direction_total linalg_norm (center part) global_center) as [d Hd].
    rewrite Hd. cbn [bind].
    rewrite IH, <- app_assoc. cbn [map app fst snd].
    unfold direction at 2. rewrite Hd. reflexivity.
Qed.

(** X13.  [exploded_view] returns and its calls are, in this order: one
    translated mesh per part, in order, part i in entry i mod 8 of the
    eight-colour list, and then [set_background], [add_axes],
    [view_isometric], azimuth 30, elevation 20, zoom 0.7 and [show].  Every
    part gets one of the eight colours (the index is always in range) and
    the colours repeat with period 8. *)
Theorem exploded_colors_cycle (bike_parts : list DataSet) :
  exists calls,
    exploded_view linalg_norm bike_parts = Ok calls /\
    calls =
      map (fun ip =>
             add_mesh
               (GTranslated (snd ip)
                  (Np.scale (direction linalg_norm (Np.mean (map center bike_parts))
                                       (snd ip))
                            explosion_factor))
               (Solid (nth (Z.to_nat (fst ip mod 8)) colors ""%string)
                      0.8 "black" 0.2))
          (Py.enumerate bike_parts) ++
      [set_background "lightgray"; add_axes 4; view_isometric;
       camera_azimuth 30; camera_elevation 20; camera_zoom 0.7; show] /\
    exploded_colors calls =
      map (fun i => nth (Z.to_nat (i mod 8)) colors ""%string)
          (Py.range (Z.of_nat (List.length bike_parts))) /\
    Forall (fun color => In color colors) (exploded_colors calls) /\
    List.length calls = (List.length bike_parts + 7)%nat /\
    forall i, nth (Z.to_nat ((i + 8) mod 8)) colors ""%string =
              nth (Z.to_nat (i mod 8)) colors ""%string.
Proof.
  unfold exploded_view. rewrite explode_loop_calls. cbn [bind app].
  eexists. split; [reflexivity|]. split; [reflexivity|].
  assert (Hc : exploded_colors
                 (map (fun ip : Z * DataSet =>
                         add_mesh
                           (GTranslated (snd ip)
                              (Np.scale
                                 (direction linalg_norm
                                    (Np.mean (map center bike_parts)) (snd ip))
                                 explosion_factor))
                           (Solid (nth (Z.to_nat (fst ip mod 8)) colors ""%string)
                                  0.8 "black" 0.2))
                      (Py.enumerate bike_parts) ++
                  [set_background "lightgray"; add_axes 4; view_isometric;
                   camera_azimuth 30; camera_elevation 20; camera_zoom 0.7; show]) =
               map (fun i => nth (Z.to_nat (i mod 8)) colors ""%string)
                   (Py.range (Z.of_nat (List.length bike_parts)))).
  { unfold exploded_colors. rewrite flat_map_app. cbn [flat_map app].
    rewrite app_nil_r, <- enumerate_fst, map_map.
    induction (Py.enumerate bike_parts) as [|ip l IH]; [reflexivity|].
    cbn [map flat_map app]. now rewrite IH. }
  split; [exact Hc|].
  split.
  { rewrite Hc. apply Forall_forall. intros color Hin.
    apply in_map_iff in Hin as (i & <- & _).
    apply nth_In. pose proof (Z.mod_pos_bound i 8 ltac:(lia)).
    change (List.length colors) with 8%nat. lia. }
  split.
  { rewrite length_app, length_map.
    rewrite <- (enumerate_snd bike_parts) at 2. rewrite length_map.
    reflexivity. }
  intros i. rewrite <- (Z.mul_1_l 8) at 1. now rewrite Z.mod_add by lia.
Qed.

End ViewerExtras.

(** ** The menu *)

Section MenuExtras.

Variable walk : list (string * list string).
Variable pv_read : string -> result DataSet.
Variable linalg_norm : Vec3 -> Q.

Lemma text_eqb_spec (a b : Text.text) : reflect (a = b) (Text.eqb a b).
Proof.
  revert b. induction a as [|x a IH]; intros [|y b]; cbn [Text.eqb];
    try (constructor; congruence).
  destruct (N.eqb_spec x y) as [->|Hxy]; cbn [andb].
  - destruct (IH b) as [->|Hab]; constructor; congruence.
  - constructor. congruence.
Qed.

Lemma rstrip_all_space (s : Text.text) :
  Text.all_space s = true -> Text.rstrip s = [].
Proof.
  induction s as [|c s IH]; [reflexivity|].
  unfold Text.all_space. cbn [forallb Text.rstrip]. intros H.
  apply andb_prop in H as [Hc Hs]. now rewrite (IH Hs), Hc.
Qed.

Lemma lstrip_app_space (l s : Text.text) :
  Text.all_space l = true -> Text.lstrip (l ++ s) = Text.lstrip s.
Proof.
  induction l as [|c l IH]; [reflexivity|].
  unfold Text.all_space. cbn [forallb app Text.lstrip]. intros H.
  apply andb_prop in H as [Hc Hl]. rewrite Hc. auto.
Qed.

Lemma rstrip_app_char (l r : Text.text) (c : N) :
  Text.is_space c = false ->
  Text.all_space r = true ->
  Text.rstrip (l ++ c :: r) = l ++ [c].
Proof.
  intros Hc Hr. induction l as [|a l IH].
  - cbn [app Text.rstrip]. now rewrite (rstrip_all_space r Hr), Hc.
  - cbn [app Text.rstrip]. rewrite IH.
    destruct l; reflexivity.
Qed.

Lemma strip_padded_char (l r : Text.text) (c : N) :
  Text.is_space c = false ->
  Text.all_space l = true ->
  Text.all_space r = true ->
  Text.strip (l ++ c :: r) = [c].
Proof.
  intros Hc Hl Hr. unfold Text.strip.
  rewrite (rstrip_app_char l r c Hc Hr), (lstrip_app_space l _ Hl).
  cbn [Text.lstrip]. now rewrite Hc.
Qed.

Lemma all_space_app (l r : Text.text) :
  Text.all_space l = true -> Text.all_space r = true ->
  Text.all_space (l ++ r) = true.
Proof.
  unfold Text.all_space. intros Hl Hr. now rewrite forallb_app, Hl, Hr.
Qed.

(** X14.  The menu ignores white space around the answer, any of the
    characters [str.strip()] removes: a padded 1, 2 or 3 opens the simple,
    the detailed or the exploded view and prints nothing after the prompt.
    Every other answer, the blank line included, prints the invalid-choice
    line and opens the simple view. *)
Theorem menu_dispatch (l r : Text.text) :
  Text.all_space l = true ->
  Text.all_space r = true ->
  let menu := ["Motorbike Mesh Visualization"; "1. Simple view";
               "2. Detailed view"; "3. Exploded view";
               "Enter choice (1-3): "]%string in
  let fallback := (menu ++ ["Invalid choice, showing simple view"%string],
                   Ok (Viewer.simple_view walk pv_read)) in
  Viewer.main walk pv_read linalg_norm (l ++ Text.of_string "1" ++ r) =
    (menu, Ok (Viewer.simple_view walk pv_read)) /\
  Viewer.main walk pv_read linalg_norm (l ++ Text.of_string "2" ++ r) =
    (menu, Viewer.detailed_view walk pv_read) /\
  Viewer.main walk pv_read linalg_norm (l ++ Text.of_string "3" ++ r) =
    (menu,
     match exploded_view linalg_norm (load_motorbike_parts walk pv_read) with
     | Ok calls => Ok (map on_plotter calls)
     | Raise e => Raise e
     end) /\
  Viewer.main walk pv_read linalg_norm (l ++ r) = fallback /\
  forall input,
    Text.strip input <> Text.of_string "1" ->
    Text.strip input <> Text.of_string "2" ->
    Text.strip input <> Text.of_string "3" ->
    Viewer.main walk pv_read linalg_norm input = fallback.
Proof.
  intros Hl Hr menu fallback.
  assert (H1 : Text.strip (l ++ Text.of_string "1" ++ r) = Text.of_string "1")
    by (apply strip_padded_char; [reflexivity | exact Hl | exact Hr]).
  assert (H2 : Text.strip (l ++ Text.of_string "2" ++ r) = Text.of_string "2")
    by (apply strip_padded_char; [reflexivity | exact Hl | exact Hr]).
  assert (H3 : Text.strip (l ++ Text.of_string "3" ++ r) = Text.of_string "3")
    by (apply strip_padded_char; [reflexivity | exact Hl | exact Hr]).
  assert (H0 : Text.strip (l ++ r) = []).
  { unfold Text.strip. now rewrite (rstrip_all_space _ (all_space_app l r Hl Hr)). }
  unfold Viewer.main.
  rewrite H1, H2, H3, H0.
  split; [reflexivity|]. split; [reflexivity|]. split; [reflexivity|].
  split; [reflexivity|].
  intros input N1 N2 N3.
  destruct (text_eqb_spec (Text.strip input) (Text.of_string "1")); [contradiction|].
  destruct (text_eqb_spec (Text.strip input) (Text.of_string "2")); [contradiction|].
  destruct (text_eqb_spec (Text.strip input) (Text.of_string "3")); [contradiction|].
  reflexivity.
Qed.

End MenuExtras.

(** ** The exploded view: how far and where to *)

Section ExplodedExtras.

Variable linalg_norm : Vec3 -> Q.

Local Open Scope Q_scope.

(** X15.  A part whose offset from the global centre has a positive norm,
    the norm being the exact Euclidean one for that offset, gets a direction
    of length 1 that points from the centre to the part, and is moved by
    0.3: the square of its translation is 0.09. *)
Theorem exploded_unit_displacement (part_center g : Vec3) :
  let offset := Np.sub part_center g in
  Np.gt (linalg_norm offset) 0 = true ->
  linalg_norm offset * linalg_norm offset == normsq offset ->
  exists d,
    offset_direction linalg_norm part_center (Some g) = Ok d /\
    normsq d == 1 /\
    normsq (Np.scale d explosion_factor) == 0.09 /\
    Np.veq (Np.scale d (linalg_norm offset)) offset.
Proof.
  cbv zeta. intros Hpos Hsq.
  unfold offset_direction. rewrite Hpos.
  pose proof (gt_zero_nonzero _ Hpos) as Hne.
  unfold Np.divide. rewrite Hne. eexists. split; [reflexivity|].
  assert (Hn : ~ linalg_norm (Np.sub part_center g) == 0).
  { intros Hz. apply Qeq_bool_iff in Hz. congruence. }
  revert Hsq Hn. unfold normsq, Np.scale, Np.veq, explosion_factor.
  cbn [x0 x1 x2].
  generalize (linalg_norm (Np.sub part_center g)).
  generalize (x0 (Np.sub part_center g)).
  generalize (x1 (Np.sub part_center g)).
  generalize (x2 (Np.sub part_center g)).
  intros c b a n Hsq Hn.
  assert (H1 : a / n * (a / n) + b / n * (b / n) + c / n * (c / n) == 1).
  { setoid_replace (a / n * (a / n) + b / n * (b / n) + c / n * (c / n))
      with ((a * a + b * b + c * c) / (n * n)) by (field; exact Hn).
    rewrite <- Hsq. field. exact Hn. }
  split; [exact H1|]. split.
  - setoid_replace (a / n * 0.3 * (a / n * 0.3) + b / n * 0.3 * (b / n * 0.3) +
                    c / n * 0.3 * (c / n * 0.3))
      with (0.09 * (a / n * (a / n) + b / n * (b / n) + c / n * (c / n)))
      by (field; exact Hn).
    rewrite H1. reflexivity.
  - repeat split; field; exact Hn.
Qed.

(** X16.  With a single part the exploded view does not move it: the
    global centre is that part's own centre, the offset is zero and so is
    the translation. *)
Theorem exploded_single_part (part : DataSet) :
  (forall v, Np.veq v Np.zero -> linalg_norm v == 0) ->
  exists calls t,
    exploded_view linalg_norm [part] = Ok calls /\
    translations calls = [(part, t)] /\
    Np.veq t Np.zero /\
    direction linalg_norm (Np.mean [center part]) part = Np.zero.
Proof.
  intros Hnorm.
  destruct (explode_loop linalg_norm (Np.mean (map center [part]))
              (Py.enumerate [part]) []) as (drawn_ & Hrun & Htr).
  assert (Hd : direction linalg_norm (Np.mean [center part]) part = Np.zero).
  { unfold direction, offset_direction. cbn [Np.mean].
    rewrite zero_not_gt; [reflexivity|].
    apply Hnorm. unfold Np.veq, Np.sub, Np.zero, Np.add.
    cbn [fold_left x0 x1 x2 List.length].
    change (inject_Z (Z.of_nat 1)) with 1.
    repeat split; field. }
  unfold exploded_view. rewrite Hrun. cbn [bind app].
  eexists. eexists. split; [reflexivity|].
  unfold translations. rewrite flat_map_app. fold (translations drawn_).
  rewrite Htr. change (Py.enumerate [part]) with [(0%Z, part)].
  cbn [map flat_map app snd]. rewrite Hd. split; [reflexivity|].
  split; [|reflexivity].
  unfold Np.veq, Np.scale, Np.zero, explosion_factor. cbn [x0 x1 x2].
  repeat split; ring.
Qed.

End ExplodedExtras.

(** ** Worked examples for the further properties *)

(** Five frames a second for five seconds: 25 frames, 25 // 2 = 12 lines. *)
Lemma run_frames_and_lines_demo :
  Demo.pv_read volume_file = Ok Demo.volume /\ (10 <= 5 * 5)%Z /\
  exists st,
    create_animation_with Demo.walk Demo.pv_read Demo.failing 5 5 = Ok st /\
    Z.of_nat (List.length (frames (st_plotter st))) = 25%Z /\
    Z.of_nat (List.length (st_stdout st)) = 12%Z.
Proof.
  split; [reflexivity|]. split; [lia|].
  destruct (run_frames_and_lines Demo.walk Demo.pv_read Demo.failing 5 5 Demo.volume
              eq_refl ltac:(lia)) as (st & Hrun & Hf & _ & Ho & _).
  exists st. split; [exact Hrun|]. split; [exact Hf | exact Ho].
Defined.

(** With 25 frames the last frame prints nothing; with 200 it prints 100%. *)
Lemma final_progress_line_demo :
  (10 <= 25)%Z /\ progress 25 24 = Ok None /\
  (10 <= 200)%Z /\ progress 200 199 = Ok (Some "Progress: 100%"%string).
Proof.
  split; [lia|]. split; [exact (final_progress_line 25 ltac:(lia))|].
  split; [lia|]. exact (final_progress_line 200 ltac:(lia)).
Defined.

(** Thirty frames: the third checkpoint is at frame 9 and shows 30%. *)
Lemma progress_every_tenth_demo :
  (1 <= 3)%Z /\ (0 <= 8 < 10 * 3)%Z /\
  progress 30 8 = Ok (Some "Progress: 30%"%string).
Proof.
  split; [lia|]. split; [lia|].
  exact (proj1 (progress_every_tenth 3 8 ltac:(lia) ltac:(lia))).
Defined.

Lemma run_without_frames_demo :
  Demo.pv_read volume_file = Ok Demo.volume /\
  (exists st,
      create_animation_with Demo.walk Demo.pv_read Demo.failing 0 10 = Ok st /\
      frames (st_plotter st) = []) /\
  exists msg,
    create_animation_with Demo.walk Demo.pv_read Demo.failing (-2) 10 =
    Raise (ValueError msg).
Proof.
  split; [reflexivity|].
  destruct (run_without_frames Demo.walk Demo.pv_read Demo.failing 0 10 Demo.volume
              eq_refl) as (Hzero & _).
  destruct (run_without_frames Demo.walk Demo.pv_read Demo.failing (-2) 10 Demo.volume
              eq_refl) as (_ & Hneg).
  split.
  - destruct (Hzero eq_refl) as (st & Hrun & Hf & _). now exists st.
  - exact (Hneg eq_refl).
Defined.

Lemma volume_failure_propagates_demo :
  Sample.unreadable volume_file = Raise (IOError "no such file") /\
  create_animation Demo.walk Sample.unreadable Demo.integrating =
  Raise (IOError "no such file").
Proof.
  split; [reflexivity|].
  exact (proj2 (volume_failure_propagates Demo.walk Sample.unreadable Demo.integrating
                  _ eq_refl) 20%Z 10%Z).
Defined.

Lemma frame_isolation_demo :
  movie Sample.recording <> None /\ movie Sample.used <> None /\
  canvas Sample.recording <> canvas Sample.used /\
  exists q1 q2,
    render_frame Demo.failing Sample.recording Demo.volume (Combined []) 90 = Ok q1 /\
    render_frame Demo.failing Sample.used Demo.volume (Combined []) 90 = Ok q2 /\
    canvas q1 = canvas q2.
Proof.
  assert (H1 : movie Sample.recording <> None) by discriminate.
  assert (H2 : movie Sample.used <> None) by discriminate.
  split; [exact H1|]. split; [exact H2|]. split; [discriminate|].
  destruct (frame_isolation Demo.failing Sample.recording Sample.used Demo.volume
              (Combined []) 90 H1 H2)
    as (c & q1 & q2 & q1' & R1 & R2 & C1 & C2 & _).
  exists q1, q2. split; [exact R1|]. split; [exact R2|]. now rewrite C1, C2.
Defined.

Lemma demo_readers_agree_on_parts (path : string) :
  In path (discovered Demo.walk) -> Demo.pv_read path = Demo.pv_read_bare path.
Proof.
  intros Hin. apply demo_readers_agree. intros ->.
  now apply (volume_file_not_discovered Demo.walk).
Qed.

Lemma loader_reads_discovered_only_demo :
  Demo.pv_read volume_file <> Demo.pv_read_bare volume_file /\
  load_motorbike_parts Demo.walk Demo.pv_read =
  load_motorbike_parts Demo.walk Demo.pv_read_bare.
Proof.
  split; [discriminate|].
  exact (proj1 (loader_reads_discovered_only Demo.pv_read Demo.walk Demo.pv_read_bare
                  demo_readers_agree_on_parts)).
Defined.

Lemma loader_skips_other_names_demo :
  is_part_name "notes.txt" = false /\
  load_motorbike_parts
    ([] ++ ("motorBike-VTK", ["motorBike_500.vtk"] ++ "notes.txt"%string :: [])
        :: [("motorBike-VTK/motorBike", ["frame_500.vtk"%string])]) Demo.pv_read =
  load_motorbike_parts
    ([] ++ ("motorBike-VTK", ["motorBike_500.vtk"] ++ [])
        :: [("motorBike-VTK/motorBike", ["frame_500.vtk"%string])]) Demo.pv_read.
Proof.
  split; [reflexivity|].
  exact (proj1 (loader_skips_other_names Demo.pv_read [] _ "motorBike-VTK"
                  ["motorBike_500.vtk"%string] [] "notes.txt" eq_refl)).
Defined.

(** An em space before the 2, a space and a no-break space after it; and
    an answer made of white space only. *)
Lemma menu_dispatch_demo :
  Text.all_space Sample.em_space = true /\ Text.all_space Sample.trailing = true /\
  snd (Viewer.main Demo.walk Demo.pv_read norm_floor [8195; 50; 32; 160]%N) =
    Viewer.detailed_view Demo.walk Demo.pv_read /\
  List.length (fst (Viewer.main Demo.walk Demo.pv_read norm_floor [8195; 32; 160]%N))
    = 6%nat.
Proof.
  split; [reflexivity|]. split; [reflexivity|].
  destruct (menu_dispatch Demo.walk Demo.pv_read norm_floor
              Sample.em_space Sample.trailing eq_refl eq_refl)
    as (_ & H2 & _ & H0 & _).
  split.
  - change ([8195; 50; 32; 160]%N)
      with (Sample.em_space ++ Text.of_string "2" ++ Sample.trailing).
    now rewrite H2.
  - change ([8195; 32; 160]%N) with (Sample.em_space ++ Sample.trailing).
    now rewrite H0.
Defined.

(** The part at the origin, with the centre at (3, 0, 4): the norm of the
    offset is 5 and the part moves by (-0.18, 0, -0.24). *)
Lemma exploded_unit_displacement_demo :
  Np.gt (norm_floor (Np.sub (mkVec3 0 0 0) (mkVec3 3 0 4))) 0 = true /\
  norm_floor (Np.sub (mkVec3 0 0 0) (mkVec3 3 0 4)) *
  norm_floor (Np.sub (mkVec3 0 0 0) (mkVec3 3 0 4)) ==
  normsq (Np.sub (mkVec3 0 0 0) (mkVec3 3 0 4)) /\
  exists d,
    offset_direction norm_floor (mkVec3 0 0 0) (Some (mkVec3 3 0 4)) = Ok d /\
    normsq (Np.scale d explosion_factor) == 0.09.
Proof.
  split; [reflexivity|]. split; [reflexivity|].
  destruct (exploded_unit_displacement norm_floor (mkVec3 0 0 0) (mkVec3 3 0 4)
              eq_refl eq_refl) as (d & Hd & _ & Hlen & _).
  exists d. split; [exact Hd | exact Hlen].
Defined.

Lemma exploded_single_part_demo :
  exists calls t,
    exploded_view norm_floor [Sample.lonely] = Ok calls /\
    translations calls = [(Sample.lonely, t)] /\
    Np.veq t Np.zero.
Proof.
  destruct (exploded_single_part norm_floor Sample.lonely norm_floor_zero)
    as (calls & t & Hrun & Htr & Ht & _).
  exists calls, t. split; [exact Hrun|]. split; [exact Htr | exact Ht].
Defined.
